(** * The adaptive threshold control loop of the football monitoring bot

    A shallow embedding of the three tools that carry the decision logic of
    the repository, and of the alert rule of the monitoring agent:

    - [Pressure.calculatePressure]    (tools/calculatePressure)
    - [Verifier.verifyGoalOutcomes]   (tools/verifyGoalOutcomes)
    - [Adjuster.performDailyAnalysis] (tools/performDailyAnalysis)
    - [Policy.alertCriteria]          (agents/footballMonitorAgent, instructions)

    JavaScript numbers that carry measurements (statistics, pressures,
    thresholds, accuracy) are IEEE 754 binary64 values, modelled by the
    executable specification of the Standard Library ([spec_float] with
    precision 53 and maximal exponent 1024).  Numbers that only ever hold
    integers read from integer columns or integer JSON fields (row ids,
    goal counts, row counts, the corner threshold) are modelled in [Z].
    Strings are ASCII.  Logging is not modelled. *)

From Stdlib Require Import ZArith List Bool String Ascii Lia.
From Stdlib Require Import Floats.SpecFloat.
From Stdlib Require Import Decimal DecimalZ Number.
From Stdlib Require Import Permutation Sorted DecimalString.
Import ListNotations.
Open Scope string_scope.
Open Scope Z_scope.

(* ================================================================= *)
(** ** JavaScript numbers and the built-ins the tools call *)

Module Js.

Definition prec : Z := 53.
Definition emax : Z := 1024.

Definition number : Set := spec_float.

Definition NaN : number := S754_nan.

(** The binary64 value nearest to an integer (ties to even). *)
Definition of_Z (z : Z) : number := binary_normalize prec emax z 0 false.

Definition add : number -> number -> number := SFadd prec emax.
Definition sub : number -> number -> number := SFsub prec emax.
Definition mul : number -> number -> number := SFmul prec emax.
Definition div : number -> number -> number := SFdiv prec emax.

(** A decimal literal [i.f] of the source denotes the binary64 value nearest
    to it: the correctly rounded quotient of the integer [if] by [10^|f|],
    both of which are exact for the literals of this program. *)
Definition of_literal (n : Number.number) : option spec_float :=
  match n with
  | Number.Decimal (Decimal.Decimal i f) =>
      Some (div (of_Z (Z.of_int (Decimal.app_int i f)))
                (of_Z (10 ^ Z.of_nat (Decimal.nb_digits f))))
  | _ => None
  end.

Definition to_literal (x : spec_float) : option Number.number := None.

Declare Scope js_scope.
Delimit Scope js_scope with js.
Number Notation spec_float of_literal to_literal : js_scope.

Infix "+" := add : js_scope.
Infix "-" := sub : js_scope.
Infix "*" := mul : js_scope.
Infix "/" := div : js_scope.

(** [x < y], [x > y], [x <= y], [x >= y]: false as soon as one side is NaN. *)
Definition ltb (x y : number) : bool := SFltb x y.
Definition gtb (x y : number) : bool := SFltb y x.
Definition leb (x y : number) : bool := SFleb x y.
Definition geb (x y : number) : bool := SFleb y x.

Infix "<?" := ltb : js_scope.
Infix ">?" := gtb : js_scope.
Infix "<=?" := leb : js_scope.
Infix ">=?" := geb : js_scope.

Definition isNaN (x : number) : bool :=
  match x with S754_nan => true | _ => false end.

(** [lo <= x && x <= hi] *)
Definition within (lo hi x : number) : Prop :=
  (lo <=? x)%js = true /\ (x <=? hi)%js = true.

(** ToBoolean on a number: NaN, +0 and -0 are falsy. *)
Definition falsy (x : number) : bool :=
  match x with S754_nan | S754_zero _ => true | _ => false end.

(** [x || 0] *)
Definition or_zero (x : number) : number :=
  if falsy x then 0%js else x.

Definition Math_abs (x : number) : number := SFabs x.

(** [Math.min(a, b)]: NaN if either is NaN; -0 is smaller than +0. *)
Definition Math_min (a b : number) : number :=
  match SFcompare a b with
  | None => NaN
  | Some Lt => a
  | Some Gt => b
  | Some Eq => match a with S754_zero true => a | _ => b end
  end.

(** [Math.max(a, b)]: NaN if either is NaN; +0 is larger than -0. *)
Definition Math_max (a b : number) : number :=
  match SFcompare a b with
  | None => NaN
  | Some Lt => b
  | Some Gt => a
  | Some Eq => match a with S754_zero false => a | _ => b end
  end.

(** [Math.round(x)]: the integer nearest to [x], ties towards +infinity,
    that is [floor(x + 1/2)] computed exactly; a result of zero keeps the
    sign of [x].  A finite [x] with a non-negative binary exponent is an
    integer already. *)
Definition Math_round (x : number) : number :=
  match x with
  | S754_finite s m e =>
      if 0 <=? e then x
      else
        let d := 2 ^ (- e) in
        let n := (2 * cond_Zopp s (Zpos m) + d) / (2 * d) in
        if n =? 0 then S754_zero s else of_Z n
  | _ => x
  end.

(** [String.prototype.toLowerCase] on ASCII strings. *)
Definition lower_ascii (c : ascii) : ascii :=
  let n := N_of_ascii c in
  if (65 <=? n)%N && (n <=? 90)%N then ascii_of_N (n + 32) else c.

Fixpoint toLowerCase (s : string) : string :=
  match s with
  | EmptyString => EmptyString
  | String c r => String (lower_ascii c) (toLowerCase r)
  end.

(** [parseInt(s, 10)]: leading white space is skipped, then an optional
    sign, then the longest prefix of decimal digits; no digit gives NaN. *)
Definition is_white (c : ascii) : bool :=
  let n := N_of_ascii c in
  ((9 <=? n)%N && (n <=? 13)%N) || (n =? 32)%N.

Fixpoint skip_white (s : string) : string :=
  match s with
  | String c r => if is_white c then skip_white r else s
  | EmptyString => s
  end.

Definition digit_of (c : ascii) : option Z :=
  let n := Z.of_N (N_of_ascii c) in
  if (48 <=? n) && (n <=? 57) then Some (n - 48) else None.

Fixpoint digits_prefix (s : string) (acc : option Z) : option Z :=
  match s with
  | String c r =>
      match digit_of c with
      | Some d =>
          digits_prefix r (Some (10 * match acc with Some a => a | None => 0 end + d))
      | None => acc
      end
  | EmptyString => acc
  end.

Definition parseInt10 (s : string) : number :=
  let s := skip_white s in
  let '(neg, s) :=
    match s with
    | String "-"%char r => (true, r)
    | String "+"%char r => (false, r)
    | _ => (false, s)
    end in
  match digits_prefix s None with
  | None => NaN
  | Some 0 => S754_zero neg
  | Some n => of_Z (if neg then - n else n)
  end.

(** Completion of a block that may throw: the value, or the message of the
    error thrown. *)
Inductive Completion (A : Type) : Type :=
| Normal (a : A)
| Throw (message : string).
Arguments Normal {A} a.
Arguments Throw {A} message.

Definition bind {A B : Type} (c : Completion A) (k : A -> Completion B)
  : Completion B :=
  match c with
  | Normal a => k a
  | Throw m => Throw m
  end.

(** [try { body } catch (error) { handler(error.message) }] *)
Definition try_catch {A : Type} (body : Completion A) (handler : string -> A) : A :=
  match body with
  | Normal a => a
  | Throw m => handler m
  end.

(** [message || fallback] on strings: the empty string is falsy. *)
Definition or_string (message fallback : string) : string :=
  match message with
  | EmptyString => fallback
  | _ => message
  end.

End Js.

Import Js.
Notation "x <- c ;; k" := (bind c (fun x => k))
  (at level 61, c at next level, right associativity).

(* ================================================================= *)
(** ** PressureScorer: the tool [calculatePressure] *)

Module Pressure.

(** [item.value] of a statistics entry: [null] (or absent), a number, a
    string, or a value of another type (boolean, object). *)
Inductive StatValue : Type :=
| VNull
| VNumber (n : number)
| VString (s : string)
| VOther.

(** One entry of [team.statistics]; [type] is absent when [None]. *)
Record StatItem : Type := {
  type : option string;
  value : StatValue
}.

(** One element of [context.stats]; [statistics] is absent when [None]. *)
Record Team : Type := {
  statistics : option (list StatItem)
}.

Record Result : Type := {
  pressHome : number;
  pressAway : number;
  pressTotal : number;
  pressDiff : number;
  attacksHome : number;
  attacksAway : number;
  shotsHome : number;
  shotsAway : number;
  cornersHome : number;
  cornersAway : number;
  success : bool;
  error : option string
}.

(** The object returned on both failure paths. *)
Definition failure (message : string) : Result :=
  {| pressHome := 0%js; pressAway := 0%js; pressTotal := 0%js; pressDiff := 0%js;
     attacksHome := 0%js; attacksAway := 0%js;
     shotsHome := 0%js; shotsAway := 0%js;
     cornersHome := 0%js; cornersAway := 0%js;
     success := false; error := Some message |}.

(** [item.type?.toLowerCase() === key.toLowerCase()] *)
Definition type_is (item : StatItem) (key : string) : bool :=
  match type item with
  | Some t => String.eqb (toLowerCase t) (toLowerCase key)
  | None => false
  end.

(** The [for ... of] loop of [getStatValue]: the first entry of the wanted
    type whose value is null, a number or a string decides; an entry of the
    wanted type with a value of another type is passed over. *)
Fixpoint scanStatistics (items : list StatItem) (key : string) : number :=
  match items with
  | [] => 0%js
  | item :: rest =>
      if type_is item key then
        match value item with
        | VNull => 0%js
        | VNumber val => val
        | VString val => or_zero (parseInt10 val)
        | VOther => scanStatistics rest key
        end
      else scanStatistics rest key
  end.

(** [team.statistics || []] *)
Definition statisticsOf (t : Team) : list StatItem :=
  match statistics t with Some l => l | None => [] end.

(** [getStatValue(team, key)]; a [null] team makes [team.statistics] throw. *)
Definition getStatValue (team : option Team) (key : string) : Completion number :=
  match team with
  | None => Throw "Cannot read properties of null (reading 'statistics')"
  | Some t => Normal (scanStatistics (statisticsOf t) key)
  end.

(** The body of the [try] block of [execute]. *)
Definition calculatePressure_body (stats : list (option Team)) : Completion Result :=
  if (List.length stats <? 2)%nat then
    Normal (failure "Insufficient statistics data")
  else
    let homeStats := nth 0 stats None in
    let awayStats := nth 1 stats None in
    attacksHome <- getStatValue homeStats "Total attacks" ;;
    attacksAway <- getStatValue awayStats "Total attacks" ;;
    shotsHome <- getStatValue homeStats "Shots on Goal" ;;
    shotsAway <- getStatValue awayStats "Shots on Goal" ;;
    cornersHome <- getStatValue homeStats "Corner Kicks" ;;
    cornersAway <- getStatValue awayStats "Corner Kicks" ;;
    let pressHome := (attacksHome * 0.5 + shotsHome * 1.5 + cornersHome * 0.8)%js in
    let pressAway := (attacksAway * 0.5 + shotsAway * 1.5 + cornersAway * 0.8)%js in
    let pressTotal := (pressHome + pressAway)%js in
    let pressDiff := Math_abs (pressHome - pressAway)%js in
    Normal {| pressHome := pressHome; pressAway := pressAway;
              pressTotal := pressTotal; pressDiff := pressDiff;
              attacksHome := attacksHome; attacksAway := attacksAway;
              shotsHome := shotsHome; shotsAway := shotsAway;
              cornersHome := cornersHome; cornersAway := cornersAway;
              success := true; error := None |}.

Definition calculatePressure (stats : list (option Team)) : Result :=
  try_catch (calculatePressure_body stats)
            (fun message => failure (or_string message "Unknown error occurred")).

(** A statistics entry [{type: t, value: n}] with an integer value. *)
Definition stat (t : string) (n : Z) : StatItem :=
  {| type := Some t; value := VNumber (of_Z n) |}.

(** A team with the three statistics the scorer reads. *)
Definition team (attacks shots corners : Z) : option Team :=
  Some {| statistics := Some [ stat "Total attacks" attacks;
                               stat "Shots on Goal" shots;
                               stat "Corner Kicks" corners ] |}.

End Pressure.

(* ================================================================= *)
(** ** The two tables of the database, as [initDatabase] creates them *)

Module Store.

(** A row of [football_alerts].  The columns [press_total], [press_diff],
    [corners] and [shots_on_goal] are written by [storeAlert] and read by
    none of the tools below; they are left out.  [goal_happened] is NULL
    when [None].  Timestamps are microseconds. *)
Record AlertRow : Type := {
  id : Z;
  fixture_id : Z;
  minute : Z;
  goals_at_alert : Z;
  goal_happened : option bool;
  created_at : Z
}.

(** The row [id = 1] of [football_thresholds].  The two pressure thresholds
    hold the number the last UPDATE was given, as [parseFloat] reads it
    back; the rounding of the DECIMAL(10, 2) column is the database's and
    is not part of the program. *)
Record ThresholdRow : Type := {
  threshold_total : number;
  threshold_diff : number;
  escanteios_10min : Z;
  last_updated : Z
}.

Record Db : Type := {
  football_alerts : list AlertRow;
  football_thresholds : option ThresholdRow
}.

(** [INTERVAL 'n minutes'] and [INTERVAL 'n hours'] *)
Definition minutes (n : Z) : Z := n * 60000000.
Definition hours (n : Z) : Z := n * 3600000000.

Definition is_null {A : Type} (x : option A) : bool :=
  match x with None => true | Some _ => false end.

(** [process.env.X] is usable when it is set to a non-empty string. *)
Definition configured (v : option string) : bool :=
  match v with
  | Some (String _ _) => true
  | _ => false
  end.

Record Env : Type := {
  DATABASE_URL : option string;
  API_FOOTBALL_KEY : option string
}.

End Store.

Import Store.

(* ================================================================= *)
(** ** OutcomeVerifier: the tool [verifyGoalOutcomes] *)

Module Verifier.

(** [fixture.goals] of the football feed: each side an integer or null. *)
Record Goals : Type := {
  home : option Z;
  away : option Z
}.

Record Fixture : Type := {
  goals : option Goals
}.

(** What [axios.get] does for one request: it rejects (network error,
    time-out, error status), or resolves with [response.data.response]
    ([None] when the field is absent). *)
Inductive Reply : Type :=
| Rejected (message : string)
| Resolved (response : option (list Fixture)).

Record Result : Type := {
  checked : Z;
  updated : Z;
  success : bool;
  error : option string
}.

(** [x || 0] on an integer or null. *)
Definition or0 (x : option Z) : Z :=
  match x with Some v => v | None => 0 end.

(** [ORDER BY created_at ASC]; rows of equal time keep their table order. *)
Fixpoint insertByCreatedAt (r : AlertRow) (sorted : list AlertRow) : list AlertRow :=
  match sorted with
  | [] => [r]
  | x :: rest =>
      if created_at r <=? created_at x then r :: sorted
      else x :: insertByCreatedAt r rest
  end.

Definition orderByCreatedAt (rows : list AlertRow) : list AlertRow :=
  fold_right insertByCreatedAt [] rows.

(** The SELECT of the tool: unverified alerts older than ten minutes, oldest
    first, at most 50. *)
Definition unverifiedAlerts (now : Z) (rows : list AlertRow) : list AlertRow :=
  firstn 50
    (orderByCreatedAt
       (filter (fun r => is_null (goal_happened r)
                         && (created_at r <? now - minutes 10))
               rows)).

(** [UPDATE football_alerts SET goal_happened = $1 WHERE id = $2] *)
Definition setGoalHappened (goalHappened : bool) (r : AlertRow) : AlertRow :=
  {| id := id r; fixture_id := fixture_id r; minute := minute r;
     goals_at_alert := goals_at_alert r;
     goal_happened := Some goalHappened;
     created_at := created_at r |}.

Definition updateQuery (goalHappened : bool) (alertId : Z) (rows : list AlertRow)
  : list AlertRow :=
  map (fun r => if id r =? alertId then setGoalHappened goalHappened r else r) rows.

(** Lines 63 to 69: the outcome computed from the fixture fetched. *)
Definition goalHappenedFor (alert : AlertRow) (fixture : Fixture) : bool :=
  let goals := goals fixture in
  let homeGoals := or0 (match goals with Some g => home g | None => None end) in
  let awayGoals := or0 (match goals with Some g => away g | None => None end) in
  let totalGoalsNow := homeGoals + awayGoals in
  let goalsAtAlert := or0 (Some (goals_at_alert alert)) in
  totalGoalsNow >? goalsAtAlert.

Section Run.

(** The feed: the reply to the [k]-th request of the run, made for the
    fixture of the given id. *)
Variable axios_get : nat -> Z -> Reply.

(** The [for (const alert of alerts)] loop with its inner [try]/[catch]:
    a rejected request, an absent or an empty response leave the table and
    the counter as they are, and the loop goes on with the next alert. *)
Fixpoint forEachAlert (alerts : list AlertRow) (k : nat)
                      (rows : list AlertRow) (updated : Z)
  : list AlertRow * Z :=
  match alerts with
  | [] => (rows, updated)
  | alert :: rest =>
      match axios_get k (fixture_id alert) with
      | Resolved (Some (fixture :: _)) =>
          let goalHappened := goalHappenedFor alert fixture in
          forEachAlert rest (S k)
                       (updateQuery goalHappened (id alert) rows) (updated + 1)
      | _ => forEachAlert rest (S k) rows updated
      end
  end.

Definition verifyGoalOutcomes (env : Env) (now : Z) (db : Db) : Db * Result :=
  if negb (configured (DATABASE_URL env)) || negb (configured (API_FOOTBALL_KEY env))
  then
    (db, {| checked := 0; updated := 0; success := false;
            error := Some "Missing DATABASE_URL or API_FOOTBALL_KEY" |})
  else
    let alerts := unverifiedAlerts now (football_alerts db) in
    let '(rows, updated) := forEachAlert alerts 0 (football_alerts db) 0 in
    ({| football_alerts := rows; football_thresholds := football_thresholds db |},
     {| checked := Z.of_nat (List.length alerts); updated := updated;
        success := true; error := None |}).

End Run.

(** The requests of a run that come back with a fixture, counted. *)
Definition hasFixture (reply : Reply) : bool :=
  match reply with
  | Resolved (Some (_ :: _)) => true
  | _ => false
  end.

Fixpoint countFixtures (axios_get : nat -> Z -> Reply)
                       (alerts : list AlertRow) (k : nat) : Z :=
  match alerts with
  | [] => 0
  | alert :: rest =>
      (if hasFixture (axios_get k (fixture_id alert)) then 1 else 0)
      + countFixtures axios_get rest (S k)
  end.

(** The row of the given id. *)
Definition rowOf (alertId : Z) (rows : list AlertRow) : option AlertRow :=
  find (fun r => id r =? alertId) rows.

(** What one turn of the loop leaves of the row of its alert: the outcome
    computed for it when the request came back with a fixture, the row as
    it was when the request was rejected or came back without a fixture. *)
Definition afterReply (reply : Reply) (alert : AlertRow) (before : option AlertRow)
  : option AlertRow :=
  match reply with
  | Resolved (Some (fixture :: _)) =>
      option_map (setGoalHappened (goalHappenedFor alert fixture)) before
  | _ => before
  end.

End Verifier.

(* ================================================================= *)
(** ** ThresholdAdjuster: the tool [performDailyAnalysis] *)

Module Adjuster.

Record Thresholds : Type := {
  thresholdTotal : number;
  thresholdDiff : number;
  escanteios10min : Z
}.

Record Result : Type := {
  matchesMonitored : Z;
  alertsSent : Z;
  goalsConfirmed : Z;
  accuracy : number;
  currentThresholds : Thresholds;
  recommendedThresholds : Thresholds;
  success : bool;
  error : option string
}.

Definition defaults : Thresholds :=
  {| thresholdTotal := 70%js; thresholdDiff := 15%js; escanteios10min := 3 |}.

Definition failure (message : string) : Result :=
  {| matchesMonitored := 0; alertsSent := 0; goalsConfirmed := 0;
     accuracy := 0%js;
     currentThresholds := defaults; recommendedThresholds := defaults;
     success := false; error := Some message |}.

(** The row [statsQuery] returns. *)
Record Stats : Type := {
  total_alerts : Z;
  goals_confirmed : Z;
  unique_matches : Z
}.

(** [WHERE created_at > NOW() - INTERVAL '24 hours' AND goal_happened IS NOT NULL] *)
Definition resolvedLastDay (now : Z) (rows : list AlertRow) : list AlertRow :=
  filter (fun r => (created_at r >? now - hours 24)
                   && negb (is_null (goal_happened r)))
         rows.

Definition is_true (x : option bool) : bool :=
  match x with Some true => true | _ => false end.

Definition statsQuery (now : Z) (rows : list AlertRow) : Stats :=
  let selected := resolvedLastDay now rows in
  {| total_alerts := Z.of_nat (List.length selected);
     goals_confirmed :=
       Z.of_nat (List.length (filter (fun r => is_true (goal_happened r)) selected));
     unique_matches :=
       Z.of_nat (List.length (nodup Z.eq_dec (map fixture_id selected))) |}.

(** Line 71. *)
Definition accuracyOf (alertsSent goalsConfirmed : Z) : number :=
  if alertsSent >? 0 then (of_Z goalsConfirmed / of_Z alertsSent * 100)%js
  else 0%js.

(** Lines 99 to 108. *)
Definition adjustmentFactorFor (accuracy : number) (alertsSent : Z) : number :=
  if (accuracy >? 85)%js then (-0.05)%js
  else if (accuracy <? 50)%js && (alertsSent >=? 3) then 0.05%js
  else 0%js.

(** Lines 110 to 116. *)
Definition newThresholds (thresholdTotal thresholdDiff : number) (escanteios10min : Z)
                         (adjustmentFactor : number) : Thresholds :=
  let newThresholdTotal := (thresholdTotal * (1 + adjustmentFactor))%js in
  let newThresholdDiff := (thresholdDiff * (1 + adjustmentFactor))%js in
  let newEscanteios := escanteios10min in
  let newThresholdTotal := Math_max 50%js (Math_min 120%js newThresholdTotal) in
  let newThresholdDiff := Math_max 10%js (Math_min 30%js newThresholdDiff) in
  let newEscanteios := Z.max 2 (Z.min 6 newEscanteios) in
  {| thresholdTotal := newThresholdTotal;
     thresholdDiff := newThresholdDiff;
     escanteios10min := newEscanteios |}.

(** [Math.round(x * 100) / 100] *)
Definition round2 (x : number) : number := (Math_round (x * 100) / 100)%js.

(** [adjustmentFactor !== 0] *)
Definition nonzero (x : number) : bool := negb (SFeqb x 0%js).

(** The row the UPDATE leaves: the values it was given, stamped [NOW()]. *)
Definition updateQuery (new : Thresholds) (now : Z) : ThresholdRow :=
  {| threshold_total := thresholdTotal new;
     threshold_diff := thresholdDiff new;
     escanteios_10min := escanteios10min new;
     last_updated := now |}.

(** The body of the [try] block of [execute]; reading a column of the
    missing row [thresholdsResult.rows[0]] throws. *)
Definition performDailyAnalysis_body (now : Z) (db : Db) : Completion (Db * Result) :=
  let stats := statsQuery now (football_alerts db) in
  let alertsSent := total_alerts stats in
  let goalsConfirmed := goals_confirmed stats in
  let matchesMonitored := unique_matches stats in
  let accuracy := accuracyOf alertsSent goalsConfirmed in
  currentThresholds <-
    match football_thresholds db with
    | Some row => Normal row
    | None => Throw "Cannot read properties of undefined (reading 'threshold_total')"
    end ;;
  let thresholdTotal := threshold_total currentThresholds in
  let thresholdDiff := threshold_diff currentThresholds in
  let escanteios10min := escanteios_10min currentThresholds in
  let adjustmentFactor := adjustmentFactorFor accuracy alertsSent in
  let new := newThresholds thresholdTotal thresholdDiff escanteios10min adjustmentFactor in
  let db' :=
    if nonzero adjustmentFactor then
      {| football_alerts := football_alerts db;
         football_thresholds := Some (updateQuery new now) |}
    else db in
  Normal
    (db',
     {| matchesMonitored := matchesMonitored;
        alertsSent := alertsSent;
        goalsConfirmed := goalsConfirmed;
        accuracy := round2 accuracy;
        currentThresholds :=
          {| thresholdTotal := thresholdTotal;
             thresholdDiff := thresholdDiff;
             escanteios10min := escanteios10min |};
        recommendedThresholds :=
          {| thresholdTotal := round2 (Adjuster.thresholdTotal new);
             thresholdDiff := round2 (Adjuster.thresholdDiff new);
             escanteios10min := Adjuster.escanteios10min new |};
        success := true;
        error := None |}).

Definition performDailyAnalysis (env : Env) (now : Z) (db : Db) : Db * Result :=
  if negb (configured (DATABASE_URL env)) then
    (db, failure "DATABASE_URL not configured")
  else
    try_catch (performDailyAnalysis_body now db)
              (fun message => (db, failure (or_string message "Unknown error occurred"))).

End Adjuster.

(* ================================================================= *)
(** ** AlertPolicy: the alert criteria of the monitoring agent

    The repository has no function that evaluates the criteria: they are
    item 3 of the instructions of [footballMonitorAgent], repeated in step
    3d of the monitoring prompt of the workflow.  [alertCriteria] is that
    rule, "A OR B AND C OR D", over the figures the agent is told to use. *)

Module Policy.

Record Metrics : Type := {
  press_total : number;
  press_diff : number;
  shots_on_goal : number;
  corners : number
}.

Record Thresholds : Type := {
  threshold_total : number;
  threshold_diff : number;
  escanteios_10min : number
}.

Definition alertCriteria (m : Metrics) (t : Thresholds) : bool :=
  (press_total m >=? threshold_total t)%js
  || ((press_diff m >=? threshold_diff t)%js && (shots_on_goal m >=? 2)%js)
  || (corners m >=? escanteios_10min t)%js.

(** A threshold held fixed or raised. *)
Definition heldOrRaised (before after : number) : Prop :=
  before = after \/ (before <=? after)%js = true.

(** [t'] is [t] with any of the three thresholds raised. *)
Definition raised (t t' : Thresholds) : Prop :=
  heldOrRaised (threshold_total t) (threshold_total t') /\
  heldOrRaised (threshold_diff t) (threshold_diff t') /\
  heldOrRaised (escanteios_10min t) (escanteios_10min t').

End Policy.

(* ================================================================= *)
(** ** The adjustment rule in the words of the specification (section 4.6)

    Three branches; the theorems below compare them with
    [Adjuster.adjustmentFactorFor]. *)

Module AdjustmentRule.

Inductive Branch : Type := Tighten | Loosen | NoChange.

Definition tighten (accuracy : number) : Prop :=
  (accuracy >? 85)%js = true.

Definition loosen (accuracy : number) (alertsSent : Z) : Prop :=
  (accuracy <? 50)%js = true /\ alertsSent >= 3.

Definition fires (b : Branch) (accuracy : number) (alertsSent : Z) : Prop :=
  match b with
  | Tighten => tighten accuracy
  | Loosen => loosen accuracy alertsSent
  | NoChange => ~ tighten accuracy /\ ~ loosen accuracy alertsSent
  end.

Definition factor (b : Branch) : number :=
  match b with
  | Tighten => (-0.05)%js
  | Loosen => 0.05%js
  | NoChange => 0%js
  end.

End AdjustmentRule.

(* ================================================================= *)
(** ** Sample data *)

Module Sample.

Definition env : Env :=
  {| DATABASE_URL := Some "postgresql://localhost:5432/mastra";
     API_FOOTBALL_KEY := Some "key" |}.

(** The snapshot of scenario A:
    [[{attacks:10, shots:3, corners:5}, {attacks:4, shots:1, corners:2}]]. *)
Definition scenarioA : list (option Pressure.Team) :=
  [Pressure.team 10 3 5; Pressure.team 4 1 2].

(** An alert of fixture [1000 + i], raised at time 0 when [goalsAtAlert]
    goals had been scored. *)
Definition alert (i goalsAtAlert : Z) (outcome : option bool) : AlertRow :=
  {| id := i; fixture_id := 1000 + i; minute := 60;
     goals_at_alert := goalsAtAlert; goal_happened := outcome;
     created_at := 0 |}.

(** [n] resolved alerts, the first [k] of them followed by a goal. *)
Definition resolved (n k : nat) : list AlertRow :=
  map (fun i => alert (Z.of_nat i) 0 (Some (i <=? k)%nat)) (seq 1 n).

Definition thresholds (total diff : number) : ThresholdRow :=
  {| threshold_total := total; threshold_diff := diff;
     escanteios_10min := 3; last_updated := 0 |}.

Definition db (ledger : list AlertRow) (total diff : number) : Db :=
  {| football_alerts := ledger;
     football_thresholds := Some (thresholds total diff) |}.

(** Three unverified alerts; the second was raised at 1-0. *)
Definition pending : list AlertRow :=
  [alert 1 0 None; alert 2 1 None; alert 3 2 None].

Definition fixture (homeGoals awayGoals : Z) : Verifier.Fixture :=
  {| Verifier.goals :=
       Some {| Verifier.home := Some homeGoals; Verifier.away := Some awayGoals |} |}.

(** A feed whose first request of a run times out and which reports 2-0
    for every other request. *)
Definition feed (k : nat) (fixtureId : Z) : Verifier.Reply :=
  match k with
  | O => Verifier.Rejected "timeout of 10000ms exceeded"
  | _ => Verifier.Resolved (Some [fixture 2 0])
  end.

(** Metrics of a match under heavy pressure and two threshold sets, the
    defaults and the defaults with the total raised to 80. *)
Definition metrics : Policy.Metrics :=
  {| Policy.press_total := 85%js; Policy.press_diff := 9.4%js;
     Policy.shots_on_goal := 4%js; Policy.corners := 1%js |}.

Definition policyThresholds (total : number) : Policy.Thresholds :=
  {| Policy.threshold_total := total; Policy.threshold_diff := 15%js;
     Policy.escanteios_10min := 3%js |}.

End Sample.

(* ================================================================= *)
(** ** ThresholdStore, read side: the tool [getCurrentThresholds] *)

Module Reader.

(** [lastUpdated] is the instant whose ISO 8601 text the tool returns, in
    milliseconds. *)
Record Result : Type := {
  thresholdTotal : number;
  thresholdDiff : number;
  escanteios10min : Z;
  lastUpdated : Z;
  success : bool;
  error : option string
}.

(** [clock] is [new Date()], in milliseconds. *)
Definition getCurrentThresholds (env : Env) (clock : Z) (db : Db) : Result :=
  if negb (configured (DATABASE_URL env)) then
    {| thresholdTotal := 70%js; thresholdDiff := 15%js; escanteios10min := 3;
       lastUpdated := clock; success := false;
       error := Some "DATABASE_URL not configured" |}
  else
    match football_thresholds db with
    | None =>
        {| thresholdTotal := 70%js; thresholdDiff := 15%js; escanteios10min := 3;
           lastUpdated := clock; success := true; error := None |}
    | Some row =>
        {| thresholdTotal := threshold_total row;
           thresholdDiff := threshold_diff row;
           escanteios10min := escanteios_10min row;
           lastUpdated := last_updated row / 1000;
           success := true; error := None |}
    end.

(** The three thresholds of a result. *)
Definition thresholdsOf (r : Result) : Adjuster.Thresholds :=
  {| Adjuster.thresholdTotal := thresholdTotal r;
     Adjuster.thresholdDiff := thresholdDiff r;
     Adjuster.escanteios10min := escanteios10min r |}.

End Reader.

(* ================================================================= *)
(** ** AlertLedger, write side: the tool [storeAlert] *)

Module Recorder.

(** The input of the tool.  The integer columns take integers; the two
    pressures go to columns no tool reads back. *)
Record Context : Type := {
  fixtureId : Z;
  minute : Z;
  pressTotal : number;
  pressDiff : number;
  corners : Z;
  shotsOnGoal : Z;
  goalsAtAlert : Z
}.

Record Result : Type := {
  success : bool;
  alertId : option Z;
  error : option string
}.

(** The row the INSERT creates: [id] from the sequence, [goal_happened]
    NULL and [created_at] NOW() by default. *)
Definition insertQuery (nextId now : Z) (context : Context) : AlertRow :=
  {| id := nextId;
     fixture_id := fixtureId context;
     Store.minute := minute context;
     goals_at_alert := goalsAtAlert context;
     goal_happened := None;
     created_at := now |}.

(** [nextId] is the value the sequence of the [id] column yields. *)
Definition storeAlert (env : Env) (now nextId : Z) (context : Context) (db : Db)
  : Db * Result :=
  if negb (configured (DATABASE_URL env)) then
    (db, {| success := false; alertId := None;
            error := Some "DATABASE_URL not configured" |})
  else
    ({| football_alerts := football_alerts db ++ [insertQuery nextId now context];
        football_thresholds := football_thresholds db |},
     {| success := true; alertId := Some nextId; error := None |}).

End Recorder.

(* ================================================================= *)
(** ** The schema set-up: [initDatabase] *)

Module Setup.

(** A row of [football_alerts] as it was before the column
    [goals_at_alert] existed. *)
Record LegacyAlertRow : Type := {
  id : Z;
  fixture_id : Z;
  minute : Z;
  goal_happened : option bool;
  created_at : Z
}.

(** The table [football_alerts] before the set-up runs: absent, present
    without the column [goals_at_alert], or present with it. *)
Inductive AlertsTable : Type :=
| NoTable
| Legacy (rows : list LegacyAlertRow)
| Current (rows : list AlertRow).

(** [thresholds] is [None] when the table [football_thresholds] is absent,
    [Some None] when it has no row of id 1. *)
Record Installation : Type := {
  alerts : AlertsTable;
  thresholds : option (option ThresholdRow)
}.

(** [ALTER TABLE football_alerts ADD COLUMN goals_at_alert INTEGER NOT NULL
    DEFAULT 0] on one row. *)
Definition addColumn (r : LegacyAlertRow) : AlertRow :=
  {| Store.id := id r; Store.fixture_id := fixture_id r;
     Store.minute := minute r; goals_at_alert := 0;
     Store.goal_happened := goal_happened r;
     Store.created_at := created_at r |}.

(** [UPDATE football_alerts SET goal_happened = NULL WHERE goal_happened IS
    NULL AND created_at < NOW() - INTERVAL '10 minutes'] *)
Definition migrationUpdate (now : Z) (rows : list AlertRow) : list AlertRow :=
  map (fun r =>
         if is_null (Store.goal_happened r) && (Store.created_at r <? now - minutes 10)
         then {| Store.id := Store.id r; Store.fixture_id := Store.fixture_id r;
                 Store.minute := Store.minute r;
                 goals_at_alert := goals_at_alert r;
                 Store.goal_happened := None;
                 Store.created_at := Store.created_at r |}
         else r)
      rows.

(** [CREATE TABLE IF NOT EXISTS football_alerts], then the migration block:
    the column is added, and the UPDATE run, only when the column is
    missing. *)
Definition alertsAfter (now : Z) (t : AlertsTable) : list AlertRow :=
  match t with
  | NoTable => []
  | Legacy rows => migrationUpdate now (map addColumn rows)
  | Current rows => rows
  end.

(** The row [VALUES (1, 70, 15, 3)], [last_updated] NOW() by default. *)
Definition defaultRow (now : Z) : ThresholdRow :=
  {| threshold_total := 70%js; threshold_diff := 15%js;
     escanteios_10min := 3; last_updated := now |}.

(** [CREATE TABLE IF NOT EXISTS football_thresholds], then
    [INSERT ... ON CONFLICT (id) DO NOTHING]. *)
Definition thresholdsAfter (now : Z) (t : option (option ThresholdRow))
  : option ThresholdRow :=
  match t with
  | Some (Some row) => Some row
  | _ => Some (defaultRow now)
  end.

(** The transaction of [initDatabase], committed. *)
Definition initDatabase (now : Z) (inst : Installation) : Db :=
  {| football_alerts := alertsAfter now (alerts inst);
     football_thresholds := thresholdsAfter now (thresholds inst) |}.


End Setup.

(* ================================================================= *)
(** ** The two fetch tools: [getFixtureStats] and [fetchLiveFixtures] *)

Module Feed.

(** What [axios.get] does: it rejects (network error, time-out, a status
    outside 2xx), or resolves with a status and [response.data.response]
    ([None] when the field is absent). *)
Inductive HttpReply (A : Type) : Type :=
| Failed (message : string)
| Replied (status : Z) (response : option (list A)).
Arguments Failed {A} message.
Arguments Replied {A} status response.

(** The template literal [`API returned status ${response.status}`]. *)
Definition statusError (status : Z) : string :=
  "API returned status " ++ NilZero.string_of_int (Z.to_int status).

Record StatsResult : Type := {
  stats : list (option Pressure.Team);
  stats_success : bool;
  stats_error : option string
}.

Definition getFixtureStats (env : Env) (reply : HttpReply (option Pressure.Team))
  : StatsResult :=
  if negb (configured (API_FOOTBALL_KEY env)) then
    {| stats := []; stats_success := false;
       stats_error := Some "API_FOOTBALL_KEY not configured" |}
  else
    match reply with
    | Replied status response =>
        if negb (status =? 200) then
          {| stats := []; stats_success := false;
             stats_error := Some (statusError status) |}
        else
          {| stats := match response with Some l => l | None => [] end;
             stats_success := true; stats_error := None |}
    | Failed message =>
        {| stats := []; stats_success := false;
           stats_error := Some (or_string message "Unknown error occurred") |}
    end.

Record FixturesResult : Type := {
  fixtures : list Verifier.Fixture;
  count : Z;
  success : bool;
  error : option string
}.

Definition fetchLiveFixtures (env : Env) (reply : HttpReply Verifier.Fixture)
  : FixturesResult :=
  if negb (configured (API_FOOTBALL_KEY env)) then
    {| fixtures := []; count := 0; success := false;
       error := Some "API_FOOTBALL_KEY not configured" |}
  else
    match reply with
    | Replied status response =>
        if negb (status =? 200) then
          {| fixtures := []; count := 0; success := false;
             error := Some (statusError status) |}
        else
          let fixtures := match response with Some l => l | None => [] end in
          {| fixtures := fixtures; count := Z.of_nat (List.length fixtures);
             success := true; error := None |}
    | Failed message =>
        {| fixtures := []; count := 0; success := false;
           error := Some (or_string message "Unknown error occurred") |}
    end.

End Feed.

(* ================================================================= *)
(** ** The workflow step [checkMidnightAndRunAnalysis] *)

Module Workflow.

(** [Date.prototype.getUTCHours] and [getUTCMinutes] of a time value in
    milliseconds. *)
Definition getUTCHours (t : Z) : Z := (t / 3600000) mod 24.
Definition getUTCMinutes (t : Z) : Z := (t / 60000) mod 60.

Definition isMidnight (t : Z) : bool :=
  (getUTCHours t =? 0) && (getUTCMinutes t =? 0).

Record StepResult : Type := {
  step_isMidnight : bool;
  analysisRun : bool;
  analysisReport : option string
}.

(** [clock] is [new Date()]; [agent] is how the call of the agent ends, with
    its text or with an error.  The step has no [try]: an error of the agent
    is an error of the step. *)
Definition checkMidnightAndRunAnalysis (clock : Z) (agent : Completion string)
  : Completion StepResult :=
  if negb (isMidnight clock) then
    Normal {| step_isMidnight := false; analysisRun := false;
              analysisReport := None |}
  else
    agentResponse <- agent ;;
    Normal {| step_isMidnight := true; analysisRun := true;
              analysisReport := Some agentResponse |}.

(** The time of the [k]-th tick of the schedule [* * * * *]: every full
    minute. *)
Definition tick (k : Z) : Z := 60000 * k.

End Workflow.

(* ================================================================= *)
(** ** Conditions on the store *)

Module Invariant.

(** The three values of a row of thresholds are in their ranges. *)
Definition rowInRange (row : ThresholdRow) : Prop :=
  within 50%js 120%js (threshold_total row) /\
  within 10%js 30%js (threshold_diff row) /\
  2 <= escanteios_10min row <= 6.

(** The row of thresholds exists and is in range. *)
Definition thresholdsInRange (db : Db) : Prop :=
  exists row : ThresholdRow,
    football_thresholds db = Some row /\ rowInRange row.

(** The ids of the alerts are distinct (PRIMARY KEY). *)
Definition distinctIds (db : Db) : Prop :=
  NoDup (map Store.id (football_alerts db)).

(** [ORDER BY created_at ASC] *)
Definition oldestFirst (rows : list AlertRow) : Prop :=
  StronglySorted (fun a b => Store.created_at a <= Store.created_at b) rows.

(** The rows the SELECT of [verifyGoalOutcomes] ranges over, before the
    ORDER BY and the LIMIT. *)
Definition eligible (now : Z) (rows : list AlertRow) : list AlertRow :=
  filter (fun r => is_null (Store.goal_happened r)
                   && (Store.created_at r <? now - minutes 10))
         rows.

End Invariant.

(* ================================================================= *)
(** ** Views used to state what the tools leave alone *)

Module View.

(** A statistics entry with its type in lower case. *)
Definition lowerType (item : Pressure.StatItem) : Pressure.StatItem :=
  {| Pressure.type := option_map toLowerCase (Pressure.type item);
     Pressure.value := Pressure.value item |}.

(** The three statistics the scorer reads. *)
Definition keys : list string :=
  ["Total attacks"; "Shots on Goal"; "Corner Kicks"].

(** The team has no entry of the given type. *)
Definition lacks (t : Pressure.Team) (key : string) : Prop :=
  Forall (fun item => Pressure.type_is item key = false) (Pressure.statisticsOf t).

(** An alert without its outcome. *)
Definition withoutOutcome (r : AlertRow) : AlertRow :=
  {| Store.id := Store.id r; Store.fixture_id := Store.fixture_id r;
     Store.minute := Store.minute r; goals_at_alert := goals_at_alert r;
     Store.goal_happened := None; Store.created_at := Store.created_at r |}.

End View.

(* ================================================================= *)
(** ** More sample data *)

Module Sample2.

Definition context : Recorder.Context :=
  {| Recorder.fixtureId := 1004; Recorder.minute := 60;
     Recorder.pressTotal := 85%js; Recorder.pressDiff := 9.4%js;
     Recorder.corners := 1; Recorder.shotsOnGoal := 4;
     Recorder.goalsAtAlert := 1 |}.

(** A team object without any statistics. *)
Definition silentTeam : option Pressure.Team :=
  Some {| Pressure.statistics := None |}.


Definition zeroMetrics : Policy.Metrics :=
  {| Policy.press_total := 0%js; Policy.press_diff := 0%js;
     Policy.shots_on_goal := 0%js; Policy.corners := 0%js |}.

End Sample2.

(* ================================================================= *)
(** ** Order facts on binary64 values *)

Section NumberOrder.

Lemma SFcompare_refl (x : number) :
  isNaN x = false -> SFcompare x x = Some Eq.
Proof.
  destruct x as [[]|[]| |[] m e]; simpl; intros H; try reflexivity; try discriminate.
  - rewrite Z.compare_refl, Pos.compare_cont_refl. reflexivity.
  - rewrite Z.compare_refl, Pos.compare_cont_refl. reflexivity.
Qed.

Lemma SFcompare_antisym (x y : number) (c : comparison) :
  SFcompare x y = Some c -> SFcompare y x = Some (CompOpp c).
Proof.
  destruct x as [[]|[]| |[] mx ex], y as [[]|[]| |[] my ey]; simpl;
    intros H; inversion H; subst; clear H; try reflexivity.
  - rewrite (Z.compare_antisym ex ey).
    destruct (ex ?= ey); simpl; try reflexivity.
    rewrite CompOpp_involutive. f_equal.
    exact (Pos.compare_cont_antisym my mx Eq).
  - rewrite (Z.compare_antisym ex ey).
    destruct (ex ?= ey); simpl; try reflexivity.
    f_equal. symmetry. exact (Pos.compare_cont_antisym mx my Eq).
Qed.

Lemma SFcompare_some (x y : number) :
  isNaN x = false -> isNaN y = false -> exists c, SFcompare x y = Some c.
Proof.
  destruct x as [[]|[]| |[] mx ex], y as [[]|[]| |[] my ey]; simpl;
    intros Hx Hy; try discriminate; eexists; reflexivity.
Qed.

Lemma SFcompare_not_nan (x y : number) (c : comparison) :
  SFcompare x y = Some c -> isNaN x = false /\ isNaN y = false.
Proof.
  destruct x as [[]|[]| |[] mx ex], y as [[]|[]| |[] my ey]; simpl;
    intros H; try discriminate; split; reflexivity.
Qed.

Lemma SFleb_compare (x y : number) :
  SFleb x y = true <-> (SFcompare x y = Some Lt \/ SFcompare x y = Some Eq).
Proof.
  unfold SFleb. destruct (SFcompare x y) as [[]|]; split; intros H;
    try reflexivity; try discriminate; auto;
    destruct H as [H|H]; discriminate.
Qed.

Lemma SFltb_compare (x y : number) :
  SFltb x y = true <-> SFcompare x y = Some Lt.
Proof.
  unfold SFltb. destruct (SFcompare x y) as [[]|]; split; intros H;
    try reflexivity; try discriminate.
Qed.

Lemma SFltb_leb (x y : number) : SFltb x y = true -> SFleb x y = true.
Proof.
  rewrite SFltb_compare, SFleb_compare. auto.
Qed.

Lemma SFleb_refl (x : number) : isNaN x = false -> SFleb x x = true.
Proof.
  intros H. apply SFleb_compare. right. apply SFcompare_refl, H.
Qed.

Lemma SFltb_irrefl (x : number) : SFltb x x = false.
Proof.
  destruct (isNaN x) eqn:E.
  - destruct x; try discriminate. reflexivity.
  - unfold SFltb. rewrite (SFcompare_refl x E). reflexivity.
Qed.

(** [x <= y] excludes [y < x]. *)
Lemma SFleb_not_gtb (x y : number) : SFleb x y = true -> SFltb y x = false.
Proof.
  rewrite SFleb_compare. unfold SFltb.
  intros [H|H]; rewrite (SFcompare_antisym _ _ _ H); reflexivity.
Qed.

(** On finite values of one sign the order is the lexicographic order of
    exponent and mantissa. *)
Lemma SFleb_pos_pos (m1 : positive) (e1 : Z) (m2 : positive) (e2 : Z) :
  SFleb (S754_finite false m1 e1) (S754_finite false m2 e2) = true
  <-> (e1 < e2 \/ (e1 = e2 /\ (m1 <= m2)%positive)).
Proof.
  unfold SFleb, SFcompare.
  change (Pos.compare_cont Eq m1 m2) with (Pos.compare m1 m2).
  destruct (Z.compare_spec e1 e2); [ destruct (Pos.compare_spec m1 m2) | | ];
    split; intros G; try reflexivity; try discriminate; try lia.
Qed.

Lemma SFleb_neg_neg (m1 : positive) (e1 : Z) (m2 : positive) (e2 : Z) :
  SFleb (S754_finite true m1 e1) (S754_finite true m2 e2) = true
  <-> (e2 < e1 \/ (e1 = e2 /\ (m2 <= m1)%positive)).
Proof.
  unfold SFleb, SFcompare.
  change (Pos.compare_cont Eq m1 m2) with (Pos.compare m1 m2).
  destruct (Z.compare_spec e1 e2); [ destruct (Pos.compare_spec m1 m2) | | ];
    simpl; split; intros G; try reflexivity; try discriminate; try lia.
Qed.

Lemma SFleb_trans (x y z : number) :
  SFleb x y = true -> SFleb y z = true -> SFleb x z = true.
Proof.
  destruct x as [[]|[]| |[] mx ex], y as [[]|[]| |[] my ey], z as [[]|[]| |[] mz ez];
    intros Hxy Hyz; try reflexivity; try discriminate.
  - rewrite SFleb_neg_neg in *. lia.
  - rewrite SFleb_pos_pos in *. lia.
Qed.

End NumberOrder.

(* ================================================================= *)
(** ** Rounding never invents a NaN; clamping lands in the interval *)

Section NumberArith.

Lemma shr_1_nonneg (mrs : shr_record) :
  0 <= shr_m mrs -> 0 <= shr_m (shr_1 mrs).
Proof.
  destruct mrs as [m r s]. simpl.
  destruct m as [|[p|p|]|[p|p|]]; simpl; lia.
Qed.

Lemma iter_pos_shr_1_nonneg (p : positive) (mrs : shr_record) :
  0 <= shr_m mrs -> 0 <= shr_m (iter_pos shr_1 p mrs).
Proof.
  revert mrs. induction p as [p IH|p IH|]; intros mrs H; simpl.
  - apply IH, IH, shr_1_nonneg, H.
  - apply IH, IH, H.
  - apply shr_1_nonneg, H.
Qed.

Lemma shr_fexp_nonneg (m e : Z) (l : location) :
  0 <= m -> 0 <= shr_m (fst (shr_fexp prec emax m e l)).
Proof.
  intros H. unfold shr_fexp, shr.
  assert (H0 : 0 <= shr_m (shr_record_of_loc m l))
    by (destruct l as [|[]]; simpl; exact H).
  destruct (fexp prec emax (Zdigits2 m + e) - e); simpl; auto.
  apply iter_pos_shr_1_nonneg, H0.
Qed.

Lemma round_nearest_even_nonneg (m : Z) (l : location) :
  0 <= m -> 0 <= round_nearest_even m l.
Proof.
  intros H. destruct l as [|[]]; simpl; try lia.
  destruct (Z.even m); lia.
Qed.

Lemma binary_round_aux_not_nan (s : bool) (m e : Z) (l : location) :
  0 <= m -> isNaN (binary_round_aux prec emax s m e l) = false.
Proof.
  intros H. unfold binary_round_aux.
  pose proof (shr_fexp_nonneg m e l H) as H1.
  destruct (shr_fexp prec emax m e l) as [mrs' e']. simpl in H1.
  pose proof (shr_fexp_nonneg _ e' loc_Exact
                (round_nearest_even_nonneg _ (loc_of_shr_record mrs') H1)) as H2.
  destruct (shr_fexp prec emax
              (round_nearest_even (shr_m mrs') (loc_of_shr_record mrs')) e' loc_Exact)
    as [mrs'' e'']. simpl in H2.
  destruct (shr_m mrs'') as [|p|p]; try reflexivity.
  - destruct (e'' <=? emax - prec); reflexivity.
  - lia.
Qed.

(** The product of a number that is not NaN by a finite non-zero number is
    not NaN. *)
Lemma mul_finite_not_nan (x : number) (s : bool) (m : positive) (e : Z) :
  isNaN x = false -> isNaN (x * S754_finite s m e)%js = false.
Proof.
  destruct x as [sx|sx| |sx mx ex]; intros H; try discriminate; try reflexivity.
  unfold mul, SFmul. apply binary_round_aux_not_nan. lia.
Qed.

(** [Math.max(lo, Math.min(hi, x))] lies between [lo] and [hi] as soon as
    [lo <= hi] and [x] is a number. *)
Lemma clamp_between (lo hi x : number) :
  (lo <=? hi)%js = true -> isNaN x = false ->
  (lo <=? Math_max lo (Math_min hi x))%js = true /\
  (Math_max lo (Math_min hi x) <=? hi)%js = true.
Proof.
  unfold leb. intros Hlh Hx.
  destruct (proj1 (SFleb_compare lo hi) Hlh) as [C|C];
    destruct (SFcompare_not_nan _ _ _ C) as [Hlo Hhi].
  all: assert (Rlo : SFleb lo lo = true) by (apply SFleb_refl, Hlo).
  all: assert (Rhi : SFleb hi hi = true) by (apply SFleb_refl, Hhi).
  all: assert (M : Math_min hi x = hi \/
                   (Math_min hi x = x /\ SFleb x hi = true)).
  1, 3: unfold Math_min;
    destruct (SFcompare_some hi x Hhi Hx) as [c Hc]; rewrite Hc;
    pose proof (SFcompare_antisym _ _ _ Hc) as Hc';
    destruct c; simpl in Hc';
    [ destruct hi as [[]| | |]; auto; right; split; auto;
      apply SFleb_compare; auto
    | auto
    | right; split; auto; apply SFleb_compare; auto ].
  all: destruct M as [M|[M Hxh]]; rewrite M; unfold Math_max.
  - rewrite C. auto.
  - destruct (SFcompare_some lo x Hlo Hx) as [c Hc]; rewrite Hc.
    destruct c.
    + destruct lo as [[]| | |]; auto; split; auto; apply SFleb_compare; auto.
    + split; auto. apply SFleb_compare; auto.
    + auto.
  - rewrite C. destruct lo as [[]| | |]; auto.
  - destruct (SFcompare_some lo x Hlo Hx) as [c Hc]; rewrite Hc.
    destruct c.
    + destruct lo as [[]| | |]; auto; split; auto; apply SFleb_compare; auto.
    + split; auto. apply SFleb_compare; auto.
    + auto.
Qed.

End NumberArith.

(* ================================================================= *)
(** ** PressureScorer *)

Section PressureScorer.

Import Pressure.

(** C1. On every snapshot with at least two team entries the result obeys
    [pressure = attacks*0.5 + shotsOnGoal*1.5 + corners*0.8] for each side,
    [pressTotal = pressHome + pressAway] and
    [pressDiff = |pressHome - pressAway|], all in binary64 arithmetic; when
    the first two entries are team objects the call succeeds and the six
    counts are the statistics "Total attacks", "Shots on Goal" and
    "Corner Kicks" of the home (first) and away (second) team. *)
Theorem calculatePressure_formula (stats : list (option Team)) :
  (2 <= List.length stats)%nat ->
  let r := calculatePressure stats in
  pressHome r = (attacksHome r * 0.5 + shotsHome r * 1.5 + cornersHome r * 0.8)%js /\
  pressAway r = (attacksAway r * 0.5 + shotsAway r * 1.5 + cornersAway r * 0.8)%js /\
  pressTotal r = (pressHome r + pressAway r)%js /\
  pressDiff r = Math_abs (pressHome r - pressAway r)%js /\
  (forall homeStats awayStats : Team,
      nth_error stats 0 = Some (Some homeStats) ->
      nth_error stats 1 = Some (Some awayStats) ->
      success r = true /\ error r = None /\
      attacksHome r = scanStatistics (statisticsOf homeStats) "Total attacks" /\
      attacksAway r = scanStatistics (statisticsOf awayStats) "Total attacks" /\
      shotsHome r = scanStatistics (statisticsOf homeStats) "Shots on Goal" /\
      shotsAway r = scanStatistics (statisticsOf awayStats) "Shots on Goal" /\
      cornersHome r = scanStatistics (statisticsOf homeStats) "Corner Kicks" /\
      cornersAway r = scanStatistics (statisticsOf awayStats) "Corner Kicks").
Proof.
  destruct stats as [|h [|a rest]]; simpl List.length; intros Hlen; try lia.
  destruct h as [h|], a as [a|].
  - repeat split; try reflexivity.
    all: simpl in H, H0; inversion H; inversion H0; subst; reflexivity.
  - repeat split; try (vm_compute; reflexivity); simpl in H0; discriminate.
  - repeat split; try (vm_compute; reflexivity); simpl in H; discriminate.
  - repeat split; try (vm_compute; reflexivity); simpl in H; discriminate.
Qed.

Lemma calculatePressure_formula_witness :
  pressTotal (calculatePressure Sample.scenarioA)
  = (pressHome (calculatePressure Sample.scenarioA)
     + pressAway (calculatePressure Sample.scenarioA))%js.
Proof.
  pose proof (calculatePressure_formula Sample.scenarioA) as H.
  simpl List.length in H.
  exact (proj1 (proj2 (proj2 (H (le_n 2))))).
Defined.

(** C5. With fewer than two team entries the tool does not throw: the body
    of its [try] block completes normally and the result is the failure
    object, [success = false], the error "Insufficient statistics data" and
    every metric zero. *)
Theorem calculatePressure_insufficient (stats : list (option Team)) :
  (List.length stats < 2)%nat ->
  calculatePressure_body stats = Normal (calculatePressure stats) /\
  calculatePressure stats =
    {| pressHome := 0%js; pressAway := 0%js; pressTotal := 0%js; pressDiff := 0%js;
       attacksHome := 0%js; attacksAway := 0%js;
       shotsHome := 0%js; shotsAway := 0%js;
       cornersHome := 0%js; cornersAway := 0%js;
       success := false; error := Some "Insufficient statistics data" |}.
Proof.
  intros Hlen.
  destruct stats as [|h [|a rest]]; simpl in Hlen; try lia; split; reflexivity.
Qed.

Lemma calculatePressure_insufficient_witness :
  success (calculatePressure [team 10 3 5]) = false.
Proof.
  pose proof (calculatePressure_insufficient [team 10 3 5]) as H.
  simpl List.length in H.
  rewrite (proj2 (H (le_n 2))). reflexivity.
Defined.

(** C8, as the specification states it, fails: on the snapshot of scenario A
    the home pressure is 13.5, not 14.5. *)
Lemma scenarioA_not_as_stated :
  ~ (pressHome (calculatePressure Sample.scenarioA) = 14.5%js /\
     pressAway (calculatePressure Sample.scenarioA) = 5.1%js /\
     pressTotal (calculatePressure Sample.scenarioA) = 19.6%js /\
     pressDiff (calculatePressure Sample.scenarioA) = 9.4%js).
Proof.
  intros [H _]. vm_compute in H. discriminate H.
Qed.

(** C8, amended. On the snapshot of scenario A the tool succeeds with
    [pressHome = 13.5], [pressAway = 5.1], [pressTotal = 18.6] and
    [pressDiff = 8.4], each the binary64 value of that literal. *)
Theorem scenarioA_pressure :
  success (calculatePressure Sample.scenarioA) = true /\
  pressHome (calculatePressure Sample.scenarioA) = 13.5%js /\
  pressAway (calculatePressure Sample.scenarioA) = 5.1%js /\
  pressTotal (calculatePressure Sample.scenarioA) = 18.6%js /\
  pressDiff (calculatePressure Sample.scenarioA) = 8.4%js.
Proof.
  repeat split; vm_compute; reflexivity.
Qed.

End PressureScorer.

(* ================================================================= *)
(** ** ThresholdAdjuster *)

Section ThresholdAdjuster.

Import Adjuster AdjustmentRule.

(** The daily analysis on its success path, spelled out. *)
Lemma performDailyAnalysis_success (env : Env) (now : Z) (db : Db) (row : ThresholdRow) :
  configured (DATABASE_URL env) = true ->
  football_thresholds db = Some row ->
  let stats := statsQuery now (football_alerts db) in
  let accuracy := accuracyOf (total_alerts stats) (goals_confirmed stats) in
  let adjustmentFactor := adjustmentFactorFor accuracy (total_alerts stats) in
  let new := newThresholds (threshold_total row) (threshold_diff row)
                           (escanteios_10min row) adjustmentFactor in
  performDailyAnalysis env now db =
    (if nonzero adjustmentFactor
     then {| football_alerts := football_alerts db;
             football_thresholds := Some (updateQuery new now) |}
     else db,
     {| matchesMonitored := unique_matches stats;
        alertsSent := total_alerts stats;
        goalsConfirmed := goals_confirmed stats;
        accuracy := round2 accuracy;
        currentThresholds :=
          {| thresholdTotal := threshold_total row;
             thresholdDiff := threshold_diff row;
             escanteios10min := escanteios_10min row |};
        recommendedThresholds :=
          {| thresholdTotal := round2 (thresholdTotal new);
             thresholdDiff := round2 (thresholdDiff new);
             escanteios10min := escanteios10min new |};
        success := true;
        error := None |}).
Proof.
  intros Hcfg Hrow. unfold performDailyAnalysis, performDailyAnalysis_body.
  rewrite Hcfg, Hrow. reflexivity.
Qed.

(** The three values the factor can take. *)
Lemma adjustmentFactorFor_cases (accuracy : number) (alertsSent : Z) :
  adjustmentFactorFor accuracy alertsSent = (-0.05)%js \/
  adjustmentFactorFor accuracy alertsSent = 0.05%js \/
  adjustmentFactorFor accuracy alertsSent = 0%js.
Proof.
  unfold adjustmentFactorFor.
  destruct (accuracy >? 85)%js; auto.
  destruct ((accuracy <? 50)%js && (alertsSent >=? 3)); auto.
Qed.

(** Above 85 is not below 50. *)
Lemma tighten_not_loosen (accuracy : number) (alertsSent : Z) :
  tighten accuracy -> ~ loosen accuracy alertsSent.
Proof.
  unfold tighten, loosen, gtb, ltb. intros H [L _].
  pose proof (SFleb_trans _ _ _ (SFltb_leb _ _ H) (SFltb_leb _ _ L)) as C.
  vm_compute in C. discriminate C.
Qed.

(** Exactly one branch of the rule fires, and the factor of the code is the
    factor of that branch. *)
Lemma adjustmentFactorFor_branch (accuracy : number) (alertsSent : Z) :
  exists b : Branch,
    fires b accuracy alertsSent /\
    (forall b', fires b' accuracy alertsSent -> b' = b) /\
    adjustmentFactorFor accuracy alertsSent = factor b.
Proof.
  unfold adjustmentFactorFor.
  destruct (accuracy >? 85)%js eqn:T.
  - exists Tighten. split; [exact T|]. split; [|reflexivity].
    intros [] F; try reflexivity.
    + exfalso. exact (tighten_not_loosen _ _ T F).
    + destruct F as [F _]. exfalso. exact (F T).
  - destruct ((accuracy <? 50)%js && (alertsSent >=? 3)) eqn:L.
    + apply andb_prop in L. destruct L as [L1 L2].
      assert (L : loosen accuracy alertsSent)
        by (split; [exact L1 | apply Z.geb_le in L2; lia]).
      exists Loosen. split; [exact L|]. split; [|reflexivity].
      intros [] F; try reflexivity.
      * unfold fires, tighten in F. congruence.
      * destruct F as [_ F]. exfalso. exact (F L).
    + assert (NL : ~ loosen accuracy alertsSent).
      { intros [L1 L2]. rewrite L1 in L. simpl in L.
        rewrite Z.geb_leb in L. apply Z.leb_gt in L. lia. }
      exists NoChange. split.
      * split; [unfold tighten; congruence | exact NL].
      * split; [|reflexivity].
        intros [] F; try reflexivity.
        -- unfold fires, tighten in F. congruence.
        -- exfalso. exact (NL F).
Qed.

Lemma nonzero_factor (b : Branch) :
  nonzero (factor b) = match b with NoChange => false | _ => true end.
Proof. destruct b; vm_compute; reflexivity. Qed.

Lemma accuracyOf_counts (n k : nat) :
  accuracyOf (Z.of_nat n) (Z.of_nat k) =
  if Z.of_nat n =? 0 then 0%js
  else (of_Z (Z.of_nat k) / of_Z (Z.of_nat n) * 100)%js.
Proof.
  unfold accuracyOf. destruct n as [|n].
  - reflexivity.
  - replace (Z.of_nat (S n) >? 0) with true by (symmetry; apply Z.gtb_lt; lia).
    replace (Z.of_nat (S n) =? 0) with false by (symmetry; apply Z.eqb_neq; lia).
    reflexivity.
Qed.

(** C2. Over the alerts of the last 24 hours that have an outcome, with
    [alertsSent] their number and [goalsConfirmed] the number of those
    followed by a goal, the analysis works with
    [accuracy = goalsConfirmed / alertsSent * 100], 0 when [alertsSent = 0];
    exactly one branch of the adjustment rule fires (factor -0.05 when
    accuracy > 85, +0.05 when accuracy < 50 and alertsSent >= 3, 0
    otherwise), and the run is the one of that branch: the thresholds are
    the clamped products by 1 + factor, written unless the branch is the
    third, and the accuracy is reported rounded to two decimals. *)
Theorem performDailyAnalysis_adjustment
    (env : Env) (now : Z) (db : Db) (row : ThresholdRow) :
  configured (DATABASE_URL env) = true ->
  football_thresholds db = Some row ->
  let resolved := resolvedLastDay now (football_alerts db) in
  let alertsSent := Z.of_nat (List.length resolved) in
  let goalsConfirmed :=
    Z.of_nat (List.length (filter (fun r => is_true (goal_happened r)) resolved)) in
  let accuracy :=
    if alertsSent =? 0 then 0%js
    else (of_Z goalsConfirmed / of_Z alertsSent * 100)%js in
  exists b : Branch,
    fires b accuracy alertsSent /\
    (forall b', fires b' accuracy alertsSent -> b' = b) /\
    let new := newThresholds (threshold_total row) (threshold_diff row)
                             (escanteios_10min row) (factor b) in
    performDailyAnalysis env now db =
      (match b with
       | NoChange => db
       | _ => {| football_alerts := football_alerts db;
                 football_thresholds := Some (updateQuery new now) |}
       end,
       {| matchesMonitored := unique_matches (statsQuery now (football_alerts db));
          alertsSent := alertsSent;
          goalsConfirmed := goalsConfirmed;
          Adjuster.accuracy := round2 accuracy;
          currentThresholds :=
            {| thresholdTotal := threshold_total row;
               thresholdDiff := threshold_diff row;
               escanteios10min := escanteios_10min row |};
          recommendedThresholds :=
            {| thresholdTotal := round2 (thresholdTotal new);
               thresholdDiff := round2 (thresholdDiff new);
               escanteios10min := escanteios10min new |};
          success := true;
          error := None |}).
Proof.
  intros Hcfg Hrow resolved alertsSent goalsConfirmed accuracy.
  assert (Hacc : accuracy = accuracyOf alertsSent goalsConfirmed)
    by (symmetry; apply accuracyOf_counts).
  destruct (adjustmentFactorFor_branch accuracy alertsSent) as (b & Hb & Hu & Hf).
  exists b. split; [exact Hb|]. split; [exact Hu|].
  intros new.
  pose proof (performDailyAnalysis_success env now db row Hcfg Hrow) as E.
  cbv zeta in E.
  change (total_alerts (statsQuery now (football_alerts db))) with alertsSent in E.
  change (goals_confirmed (statsQuery now (football_alerts db)))
    with goalsConfirmed in E.
  rewrite <- Hacc, Hf, nonzero_factor in E.
  rewrite E. destruct b; reflexivity.
Qed.

Lemma performDailyAnalysis_adjustment_witness :
  thresholdTotal
    (recommendedThresholds
       (snd (performDailyAnalysis Sample.env (hours 1)
               (Sample.db (Sample.resolved 10 9) 70%js 15%js)))) = 66.5%js.
Proof.
  destruct (performDailyAnalysis_adjustment Sample.env (hours 1)
              (Sample.db (Sample.resolved 10 9) 70%js 15%js)
              (Sample.thresholds 70%js 15%js) eq_refl eq_refl)
    as (b & Hb & _ & Hrun).
  rewrite Hrun. clear Hrun.
  destruct b.
  - vm_compute. reflexivity.
  - destruct Hb as [Hb _]. vm_compute in Hb. discriminate Hb.
  - destruct Hb as [Hb _]. exfalso. apply Hb. vm_compute. reflexivity.
Defined.

(** Scenario B: ten alerts, nine goals, thresholds 70 and 15: accuracy 90,
    new thresholds 66.5 and 14.25, written. *)
Example scenarioB :
  performDailyAnalysis Sample.env (hours 1)
    (Sample.db (Sample.resolved 10 9) 70%js 15%js)
  = ({| football_alerts := Sample.resolved 10 9;
        football_thresholds :=
          Some {| threshold_total := 66.5%js; threshold_diff := 14.25%js;
                  escanteios_10min := 3; last_updated := hours 1 |} |},
     {| matchesMonitored := 10; alertsSent := 10; goalsConfirmed := 9;
        accuracy := 90%js;
        currentThresholds :=
          {| thresholdTotal := 70%js; thresholdDiff := 15%js; escanteios10min := 3 |};
        recommendedThresholds :=
          {| thresholdTotal := 66.5%js; thresholdDiff := 14.25%js;
             escanteios10min := 3 |};
        success := true; error := None |}).
Proof. vm_compute. reflexivity. Qed.

(** Scenario C: four alerts, one goal: accuracy 25, new thresholds 73.5 and
    15.75. *)
Example scenarioC :
  recommendedThresholds
    (snd (performDailyAnalysis Sample.env (hours 1)
            (Sample.db (Sample.resolved 4 1) 70%js 15%js)))
  = {| thresholdTotal := 73.5%js; thresholdDiff := 15.75%js; escanteios10min := 3 |}.
Proof. vm_compute. reflexivity. Qed.

(** Without the row of thresholds the run fails with the defaults and
    leaves the database as it is. *)
Example missing_thresholds_row :
  performDailyAnalysis Sample.env (hours 1)
    {| football_alerts := Sample.resolved 4 1; football_thresholds := None |}
  = ({| football_alerts := Sample.resolved 4 1; football_thresholds := None |},
     failure "Cannot read properties of undefined (reading 'threshold_total')").
Proof. reflexivity. Qed.

(** [1 + adjustmentFactor] is one of three finite non-zero numbers. *)
Lemma one_plus_factor_finite (accuracy : number) (alertsSent : Z) :
  exists (s : bool) (m : positive) (e : Z),
    (1 + adjustmentFactorFor accuracy alertsSent)%js = S754_finite s m e.
Proof.
  destruct (adjustmentFactorFor_cases accuracy alertsSent) as [E|[E|E]];
    rewrite E; vm_compute; eauto.
Qed.

Lemma newThresholds_within
    (total diff : number) (escanteios : Z) (accuracy : number) (alertsSent : Z) :
  isNaN total = false ->
  isNaN diff = false ->
  let new := newThresholds total diff escanteios
                           (adjustmentFactorFor accuracy alertsSent) in
  within 50%js 120%js (thresholdTotal new) /\
  within 10%js 30%js (thresholdDiff new) /\
  escanteios10min new = Z.max 2 (Z.min 6 escanteios) /\
  (2 <= escanteios <= 6 -> escanteios10min new = escanteios).
Proof.
  intros Ht Hd new.
  destruct (one_plus_factor_finite accuracy alertsSent) as (s & m & e & E).
  unfold new, newThresholds, within. cbn [thresholdTotal thresholdDiff escanteios10min].
  rewrite E.
  split; [|split; [|split]].
  - apply clamp_between; [reflexivity | apply mul_finite_not_nan, Ht].
  - apply clamp_between; [reflexivity | apply mul_finite_not_nan, Hd].
  - reflexivity.
  - lia.
Qed.

(** C3. For a stored pair of thresholds (two numbers) and every accuracy,
    inside [0, 100] or not, the new values lie in [50, 120] and [10, 30];
    the corner threshold does not depend on the factor: it is the stored
    one clamped to [2, 6], hence the stored one when that is in range.  A
    run of the analysis leaves the store as it is or writes such values. *)
Theorem newThresholds_bounded (row : ThresholdRow) :
  isNaN (threshold_total row) = false ->
  isNaN (threshold_diff row) = false ->
  (forall (accuracy : number) (alertsSent : Z),
      let new := newThresholds (threshold_total row) (threshold_diff row)
                               (escanteios_10min row)
                               (adjustmentFactorFor accuracy alertsSent) in
      within 50%js 120%js (thresholdTotal new) /\
      within 10%js 30%js (thresholdDiff new) /\
      escanteios10min new = Z.max 2 (Z.min 6 (escanteios_10min row)) /\
      (2 <= escanteios_10min row <= 6 ->
       escanteios10min new = escanteios_10min row)) /\
  (forall (env : Env) (now : Z) (db : Db),
      configured (DATABASE_URL env) = true ->
      football_thresholds db = Some row ->
      fst (performDailyAnalysis env now db) = db \/
      exists new : Thresholds,
        football_thresholds (fst (performDailyAnalysis env now db))
          = Some (updateQuery new now) /\
        within 50%js 120%js (thresholdTotal new) /\
        within 10%js 30%js (thresholdDiff new) /\
        escanteios10min new = Z.max 2 (Z.min 6 (escanteios_10min row))).
Proof.
  intros Ht Hd. split.
  - intros accuracy alertsSent. apply newThresholds_within; assumption.
  - intros env now db Hcfg Hrow.
    rewrite (performDailyAnalysis_success env now db row Hcfg Hrow).
    cbv zeta. cbn [fst].
    match goal with |- context [nonzero ?f] => destruct (nonzero f) end.
    + right. eexists. split; [reflexivity|].
      match goal with
      | |- context [adjustmentFactorFor ?a ?n] =>
          destruct (newThresholds_within (threshold_total row) (threshold_diff row)
                      (escanteios_10min row) a n Ht Hd) as (B1 & B2 & B3 & _)
      end.
      auto.
    + left. reflexivity.
Qed.

Lemma newThresholds_bounded_witness :
  within 50%js 120%js
    (thresholdTotal
       (newThresholds 70%js 15%js 3 (adjustmentFactorFor 90%js 10))).
Proof.
  exact (proj1 (proj1 (newThresholds_bounded (Sample.thresholds 70%js 15%js)
                         eq_refl eq_refl) 90%js 10)).
Defined.

(** Inside [50, 85] the factor is 0. *)
Lemma adjustmentFactorFor_mid (accuracy : number) (alertsSent : Z) :
  within 50%js 85%js accuracy ->
  adjustmentFactorFor accuracy alertsSent = 0%js.
Proof.
  unfold within, leb, adjustmentFactorFor, gtb, ltb. intros [Hlo Hhi].
  rewrite (SFleb_not_gtb _ _ Hhi), (SFleb_not_gtb _ _ Hlo). reflexivity.
Qed.

(** C6. A run of the analysis that finds the thresholds returns the current
    ones as read and the recommended ones (the new values rounded to two
    decimals), whether it writes or not.  When the accuracy lies in
    [50, 85] the run writes nothing: the database after it is the database
    before it, and so it is after a second run. *)
Theorem performDailyAnalysis_idempotent
    (env : Env) (now1 now2 : Z) (db : Db) (row : ThresholdRow) :
  configured (DATABASE_URL env) = true ->
  football_thresholds db = Some row ->
  let accuracyAt now :=
    accuracyOf (total_alerts (statsQuery now (football_alerts db)))
               (goals_confirmed (statsQuery now (football_alerts db))) in
  let factorAt now :=
    adjustmentFactorFor (accuracyAt now)
                        (total_alerts (statsQuery now (football_alerts db))) in
  let new := newThresholds (threshold_total row) (threshold_diff row)
                           (escanteios_10min row) (factorAt now1) in
  let run1 := performDailyAnalysis env now1 db in
  (success (snd run1) = true /\
   currentThresholds (snd run1) =
     {| thresholdTotal := threshold_total row;
        thresholdDiff := threshold_diff row;
        escanteios10min := escanteios_10min row |} /\
   recommendedThresholds (snd run1) =
     {| thresholdTotal := round2 (thresholdTotal new);
        thresholdDiff := round2 (thresholdDiff new);
        escanteios10min := escanteios10min new |}) /\
  (within 50%js 85%js (accuracyAt now1) ->
   factorAt now1 = 0%js /\ fst run1 = db) /\
  (within 50%js 85%js (accuracyAt now1) ->
   within 50%js 85%js (accuracyAt now2) ->
   fst (performDailyAnalysis env now2 (fst run1)) = db).
Proof.
  intros Hcfg Hrow accuracyAt factorAt new run1.
  assert (Hkeep : forall now, within 50%js 85%js (accuracyAt now) ->
                              factorAt now = 0%js /\
                              fst (performDailyAnalysis env now db) = db).
  { intros now Hin.
    assert (F : factorAt now = 0%js) by (apply adjustmentFactorFor_mid, Hin).
    split; [exact F|].
    pose proof (performDailyAnalysis_success env now db row Hcfg Hrow) as E.
    cbv zeta in E. fold (accuracyAt now) in E. fold (factorAt now) in E.
    rewrite F in E. rewrite E. reflexivity. }
  split; [|split].
  - unfold run1.
    rewrite (performDailyAnalysis_success env now1 db row Hcfg Hrow).
    cbv zeta. cbn [snd success currentThresholds recommendedThresholds].
    repeat split.
  - intros Hin. exact (Hkeep now1 Hin).
  - intros Hin1 Hin2. unfold run1.
    rewrite (proj2 (Hkeep now1 Hin1)). exact (proj2 (Hkeep now2 Hin2)).
Qed.

Lemma performDailyAnalysis_idempotent_witness :
  fst (performDailyAnalysis Sample.env (hours 2)
         (fst (performDailyAnalysis Sample.env (hours 1)
                 (Sample.db (Sample.resolved 4 3) 70%js 15%js))))
  = Sample.db (Sample.resolved 4 3) 70%js 15%js.
Proof.
  refine (proj2 (proj2 (performDailyAnalysis_idempotent Sample.env (hours 1) (hours 2)
                          (Sample.db (Sample.resolved 4 3) 70%js 15%js)
                          (Sample.thresholds 70%js 15%js) eq_refl eq_refl)) _ _);
    split; vm_compute; reflexivity.
Defined.



End ThresholdAdjuster.

(* ================================================================= *)
(** ** OutcomeVerifier *)

Section OutcomeVerifier.

Import Verifier.

(** *** The batch selected *)

Lemma insertByCreatedAt_perm (r : AlertRow) (sorted : list AlertRow) :
  Permutation (insertByCreatedAt r sorted) (r :: sorted).
Proof.
  induction sorted as [|x rest IH]; simpl.
  - apply Permutation_refl.
  - destruct (created_at r <=? created_at x).
    + apply Permutation_refl.
    + eapply perm_trans; [apply perm_skip, IH | apply perm_swap].
Qed.

Lemma orderByCreatedAt_perm (rows : list AlertRow) :
  Permutation (orderByCreatedAt rows) rows.
Proof.
  induction rows as [|r rows IH]; simpl.
  - apply perm_nil.
  - eapply perm_trans; [apply insertByCreatedAt_perm | apply perm_skip, IH].
Qed.

(** Filtering rows and cutting the list short keep the ids distinct. *)
Lemma filter_ids_NoDup (keep : AlertRow -> bool) (rows : list AlertRow) :
  NoDup (map id rows) -> NoDup (map id (filter keep rows)).
Proof.
  induction rows as [|r rows IH]; simpl; intros Hnd.
  - constructor.
  - apply NoDup_cons_iff in Hnd. destruct Hnd as [Hfresh Hrest].
    destruct (keep r); simpl; [|exact (IH Hrest)].
    apply NoDup_cons; [|exact (IH Hrest)].
    intros Hin. apply Hfresh.
    apply in_map_iff in Hin. destruct Hin as (r' & Hid & Hin).
    apply filter_In in Hin. rewrite <- Hid. apply in_map, Hin.
Qed.

Lemma firstn_ids_NoDup (n : nat) (rows : list AlertRow) :
  NoDup (map id rows) -> NoDup (map id (firstn n rows)).
Proof.
  intros Hnd. rewrite <- (firstn_skipn n rows), map_app in Hnd.
  exact (NoDup_app_remove_r _ _ Hnd).
Qed.

Lemma In_firstn {A : Type} (n : nat) (l : list A) (x : A) :
  In x (firstn n l) -> In x l.
Proof.
  intros H. rewrite <- (firstn_skipn n l). apply in_or_app. left. exact H.
Qed.

(** Every alert of the batch is a row of the table, unverified and older
    than ten minutes. *)
Lemma unverifiedAlerts_In (now : Z) (rows : list AlertRow) (alert : AlertRow) :
  In alert (unverifiedAlerts now rows) ->
  In alert rows /\ goal_happened alert = None /\
  created_at alert < now - minutes 10.
Proof.
  unfold unverifiedAlerts. intros H.
  apply In_firstn in H.
  apply (Permutation_in _ (orderByCreatedAt_perm _)) in H.
  apply filter_In in H. destruct H as [Hin Hf].
  apply andb_prop in Hf. destruct Hf as [Hnull Hold].
  split; [exact Hin|]. split.
  - destruct (goal_happened alert); [discriminate | reflexivity].
  - apply Z.ltb_lt, Hold.
Qed.

Lemma unverifiedAlerts_NoDup (now : Z) (rows : list AlertRow) :
  NoDup (map id rows) -> NoDup (map id (unverifiedAlerts now rows)).
Proof.
  intros H. unfold unverifiedAlerts.
  apply firstn_ids_NoDup.
  eapply Permutation_NoDup.
  - apply Permutation_map, Permutation_sym, orderByCreatedAt_perm.
  - apply filter_ids_NoDup, H.
Qed.

Lemma unverifiedAlerts_at_most_50 (now : Z) (rows : list AlertRow) :
  (List.length (unverifiedAlerts now rows) <= 50)%nat.
Proof.
  unfold unverifiedAlerts. apply firstn_le_length.
Qed.

(** *** Rows by id *)

Lemma rowOf_In (alertId : Z) (rows : list AlertRow) (r : AlertRow) :
  NoDup (map id rows) -> In r rows -> id r = alertId ->
  rowOf alertId rows = Some r.
Proof.
  unfold rowOf. induction rows as [|x rows IH]; simpl; intros Hnd Hin Hid.
  - contradiction.
  - inversion Hnd as [|? ? Hn Hl]; subst.
    destruct Hin as [->|Hin].
    + rewrite Z.eqb_refl. reflexivity.
    + destruct (Z.eqb_spec (id x) (id r)) as [E|E].
      * exfalso. apply Hn. rewrite E. apply in_map, Hin.
      * apply IH; auto.
Qed.

Lemma rowOf_updateQuery (goalHappened : bool) (alertId i : Z) (rows : list AlertRow) :
  rowOf i (updateQuery goalHappened alertId rows) =
  if i =? alertId then option_map (setGoalHappened goalHappened) (rowOf i rows)
  else rowOf i rows.
Proof.
  unfold rowOf, updateQuery. induction rows as [|x rows IH]; simpl.
  - destruct (i =? alertId); reflexivity.
  - destruct (Z.eqb_spec (id x) alertId) as [E|E]; simpl.
    + destruct (Z.eqb_spec (id x) i) as [E'|E'].
      * subst. rewrite Z.eqb_refl. reflexivity.
      * exact IH.
    + destruct (Z.eqb_spec (id x) i) as [E'|E'].
      * subst. destruct (Z.eqb_spec (id x) alertId); [contradiction | reflexivity].
      * exact IH.
Qed.

(** *** The loop *)

Variable axios_get : nat -> Z -> Reply.

Lemma forEachAlert_other (alerts : list AlertRow) (k : nat)
      (rows : list AlertRow) (updated : Z) (i : Z) :
  ~ In i (map id alerts) ->
  rowOf i (fst (forEachAlert axios_get alerts k rows updated)) = rowOf i rows.
Proof.
  revert k rows updated.
  induction alerts as [|a alerts IH]; intros k rows updated Hni; simpl.
  - reflexivity.
  - simpl in Hni.
    assert (Hne : i <> id a) by (intros E; apply Hni; left; symmetry; exact E).
    assert (Hni' : ~ In i (map id alerts)) by (intros E; apply Hni; right; exact E).
    destruct (axios_get k (fixture_id a)) as [msg|[[|f fs]|]];
      rewrite (IH _ _ _ Hni'); try reflexivity.
    rewrite rowOf_updateQuery.
    destruct (Z.eqb_spec i (id a)); [contradiction | reflexivity].
Qed.

Lemma forEachAlert_at (alerts : list AlertRow) (k : nat)
      (rows : list AlertRow) (updated : Z) (j : nat) (alert : AlertRow) :
  NoDup (map id alerts) ->
  nth_error alerts j = Some alert ->
  rowOf (id alert) (fst (forEachAlert axios_get alerts k rows updated)) =
  afterReply (axios_get (k + j)%nat (fixture_id alert)) alert
             (rowOf (id alert) rows).
Proof.
  revert k rows updated j.
  induction alerts as [|a alerts IH]; intros k rows updated j Hnd Hj.
  - destruct j; discriminate.
  - simpl in Hnd. inversion Hnd as [|? ? Hn Hl]; subst.
    destruct j as [|j]; simpl in Hj.
    + inversion Hj; subst. rewrite Nat.add_0_r. simpl.
      destruct (axios_get k (fixture_id alert)) as [msg|[[|f fs]|]];
        rewrite (forEachAlert_other _ _ _ _ _ Hn); simpl; try reflexivity.
      rewrite rowOf_updateQuery, Z.eqb_refl. reflexivity.
    + assert (Hne : id alert <> id a).
      { intros E. apply Hn. rewrite <- E.
        apply in_map, (nth_error_In _ _ Hj). }
      replace (k + S j)%nat with (S k + j)%nat by lia. simpl.
      destruct (axios_get k (fixture_id a)) as [msg|[[|f fs]|]];
        rewrite (IH _ _ _ _ Hl Hj); try reflexivity.
      rewrite rowOf_updateQuery.
      destruct (Z.eqb_spec (id alert) (id a)); [contradiction | reflexivity].
Qed.

Lemma forEachAlert_updated (alerts : list AlertRow) (k : nat)
      (rows : list AlertRow) (updated : Z) :
  snd (forEachAlert axios_get alerts k rows updated)
  = updated + countFixtures axios_get alerts k.
Proof.
  revert k rows updated.
  induction alerts as [|a alerts IH]; intros k rows updated; simpl.
  - lia.
  - destruct (axios_get k (fixture_id a)) as [msg|[[|f fs]|]];
      rewrite IH; cbn [hasFixture]; lia.
Qed.

Lemma same_id_same_row (rows : list AlertRow) (r r' : AlertRow) :
  NoDup (map id rows) -> In r rows -> In r' rows -> id r = id r' -> r = r'.
Proof.
  induction rows as [|x rows IH]; simpl; intros Hnd Hr Hr' Hid.
  - contradiction.
  - apply NoDup_cons_iff in Hnd. destruct Hnd as [Hfresh Hrest].
    destruct Hr as [->|Hr], Hr' as [->|Hr'].
    + reflexivity.
    + exfalso. apply Hfresh. rewrite Hid. apply in_map, Hr'.
    + exfalso. apply Hfresh. rewrite <- Hid. apply in_map, Hr.
    + exact (IH Hrest Hr Hr' Hid).
Qed.

(** The run, configured: what it leaves of the row of the [k]-th alert of
    its batch. *)
Lemma verifyGoalOutcomes_row (env : Env) (now : Z) (db : Db)
      (k : nat) (alert : AlertRow) :
  configured (DATABASE_URL env) = true ->
  configured (API_FOOTBALL_KEY env) = true ->
  NoDup (map id (football_alerts db)) ->
  nth_error (unverifiedAlerts now (football_alerts db)) k = Some alert ->
  rowOf (id alert) (football_alerts (fst (verifyGoalOutcomes axios_get env now db)))
  = afterReply (axios_get k (fixture_id alert)) alert (Some alert).
Proof.
  intros Hdb Hkey Hnd Hk. unfold verifyGoalOutcomes.
  rewrite Hdb, Hkey. cbn [negb orb].
  pose proof (forEachAlert_at (unverifiedAlerts now (football_alerts db)) 0
                (football_alerts db) 0 k alert
                (unverifiedAlerts_NoDup now _ Hnd) Hk) as H.
  destruct (forEachAlert axios_get (unverifiedAlerts now (football_alerts db)) 0
              (football_alerts db) 0) as [rows updated].
  cbn [fst football_alerts] in *. rewrite H. cbn [Nat.add].
  destruct (unverifiedAlerts_In now _ alert (nth_error_In _ _ Hk)) as (Hin & _ & _).
  rewrite (rowOf_In (id alert) _ alert Hnd Hin eq_refl). reflexivity.
Qed.

(** The rows outside the batch are left as they were. *)
Lemma verifyGoalOutcomes_outside (env : Env) (now : Z) (db : Db) (r : AlertRow) :
  configured (DATABASE_URL env) = true ->
  configured (API_FOOTBALL_KEY env) = true ->
  NoDup (map id (football_alerts db)) ->
  In r (football_alerts db) ->
  ~ In r (unverifiedAlerts now (football_alerts db)) ->
  rowOf (id r) (football_alerts (fst (verifyGoalOutcomes axios_get env now db)))
  = Some r.
Proof.
  intros Hdb Hkey Hnd Hin Hout. unfold verifyGoalOutcomes.
  rewrite Hdb, Hkey. cbn [negb orb].
  assert (Hid : ~ In (id r) (map id (unverifiedAlerts now (football_alerts db)))).
  { intros H. apply in_map_iff in H. destruct H as (a & Ha & Hain).
    destruct (unverifiedAlerts_In now _ a Hain) as (Hatab & _ & _).
    apply Hout.
    rewrite (same_id_same_row _ r a Hnd Hin Hatab (eq_sym Ha)). exact Hain. }
  pose proof (forEachAlert_other (unverifiedAlerts now (football_alerts db)) 0
                (football_alerts db) 0 (id r) Hid) as H.
  destruct (forEachAlert axios_get (unverifiedAlerts now (football_alerts db)) 0
              (football_alerts db) 0) as [rows updated].
  cbn [fst football_alerts] in *. rewrite H.
  exact (rowOf_In (id r) _ r Hnd Hin eq_refl).
Qed.

Lemma verifyGoalOutcomes_counts (env : Env) (now : Z) (db : Db) :
  configured (DATABASE_URL env) = true ->
  configured (API_FOOTBALL_KEY env) = true ->
  success (snd (verifyGoalOutcomes axios_get env now db)) = true /\
  checked (snd (verifyGoalOutcomes axios_get env now db))
  = Z.of_nat (List.length (unverifiedAlerts now (football_alerts db))) /\
  updated (snd (verifyGoalOutcomes axios_get env now db))
  = countFixtures axios_get (unverifiedAlerts now (football_alerts db)) 0.
Proof.
  intros Hdb Hkey. unfold verifyGoalOutcomes.
  rewrite Hdb, Hkey. cbn [negb orb].
  pose proof (forEachAlert_updated (unverifiedAlerts now (football_alerts db)) 0
                (football_alerts db) 0) as H.
  destruct (forEachAlert axios_get (unverifiedAlerts now (football_alerts db)) 0
              (football_alerts db) 0) as [rows n].
  cbn [snd] in H. subst n.
  repeat split.
Qed.

(** C4. When the request made for an alert of the batch comes back with a
    fixture, the row of that alert is resolved with
    [goalHappened = (homeGoals + awayGoals > goalsAtAlert)], a null goal
    count standing for 0: true when the total has grown, false when it is
    equal (or lower); with [goalsAtAlert = 1] and a score of 2-0 the
    outcome is true. *)
Theorem verifyGoalOutcomes_strict
    (env : Env) (now : Z) (db : Db) (k : nat) (alert : AlertRow)
    (fixture : Fixture) (others : list Fixture) :
  configured (DATABASE_URL env) = true ->
  configured (API_FOOTBALL_KEY env) = true ->
  NoDup (map id (football_alerts db)) ->
  nth_error (unverifiedAlerts now (football_alerts db)) k = Some alert ->
  axios_get k (fixture_id alert) = Resolved (Some (fixture :: others)) ->
  let homeGoals := match goals fixture with Some g => or0 (home g) | None => 0 end in
  let awayGoals := match goals fixture with Some g => or0 (away g) | None => 0 end in
  let after :=
    rowOf (id alert)
          (football_alerts (fst (verifyGoalOutcomes axios_get env now db))) in
  goal_happened alert = None /\
  after = Some (setGoalHappened (homeGoals + awayGoals >? goals_at_alert alert) alert) /\
  (homeGoals + awayGoals > goals_at_alert alert ->
   option_map goal_happened after = Some (Some true)) /\
  (homeGoals + awayGoals = goals_at_alert alert ->
   option_map goal_happened after = Some (Some false)) /\
  (homeGoals + awayGoals < goals_at_alert alert ->
   option_map goal_happened after = Some (Some false)) /\
  (goals_at_alert alert = 1 ->
   goals fixture = Some {| home := Some 2; away := Some 0 |} ->
   option_map goal_happened after = Some (Some true)).
Proof.
  intros Hdb Hkey Hnd Hk Hreply homeGoals awayGoals after.
  assert (Hafter : after =
            Some (setGoalHappened (homeGoals + awayGoals >? goals_at_alert alert) alert)).
  { unfold after. rewrite (verifyGoalOutcomes_row env now db k alert Hdb Hkey Hnd Hk).
    rewrite Hreply. unfold afterReply, goalHappenedFor, option_map.
    unfold homeGoals, awayGoals. destruct (goals fixture); reflexivity. }
  split.
  { exact (proj1 (proj2 (unverifiedAlerts_In now _ alert (nth_error_In _ _ Hk)))). }
  split; [exact Hafter|].
  rewrite Hafter. cbn [option_map setGoalHappened goal_happened].
  repeat split.
  - intros H. replace (homeGoals + awayGoals >? goals_at_alert alert) with true
      by (symmetry; apply Z.gtb_lt; lia). reflexivity.
  - intros H. replace (homeGoals + awayGoals >? goals_at_alert alert) with false
      by (symmetry; rewrite Z.gtb_ltb; apply Z.ltb_ge; lia). reflexivity.
  - intros H. replace (homeGoals + awayGoals >? goals_at_alert alert) with false
      by (symmetry; rewrite Z.gtb_ltb; apply Z.ltb_ge; lia). reflexivity.
  - intros H1 Hg. unfold homeGoals, awayGoals. rewrite Hg, H1. reflexivity.
Qed.

(** C9. A configured run reports success, counts the whole batch as checked
    and every request that came back with a fixture as updated, whatever
    the feed does.  For each alert of the batch, a rejected request leaves
    its row as it was, unverified, and a request that comes back with a
    fixture resolves its row, whatever became of the requests made for the
    other alerts; the rows outside the batch are left as they were. *)
Theorem verifyGoalOutcomes_isolation (env : Env) (now : Z) (db : Db) :
  configured (DATABASE_URL env) = true ->
  configured (API_FOOTBALL_KEY env) = true ->
  NoDup (map id (football_alerts db)) ->
  let alerts := unverifiedAlerts now (football_alerts db) in
  let run := verifyGoalOutcomes axios_get env now db in
  success (snd run) = true /\
  checked (snd run) = Z.of_nat (List.length alerts) /\
  updated (snd run) = countFixtures axios_get alerts 0 /\
  (forall (k : nat) (alert : AlertRow),
      nth_error alerts k = Some alert ->
      (forall message : string,
          axios_get k (fixture_id alert) = Rejected message ->
          rowOf (id alert) (football_alerts (fst run)) = Some alert /\
          goal_happened alert = None) /\
      (forall (fixture : Fixture) (others : list Fixture),
          axios_get k (fixture_id alert) = Resolved (Some (fixture :: others)) ->
          rowOf (id alert) (football_alerts (fst run))
          = Some (setGoalHappened (goalHappenedFor alert fixture) alert))) /\
  (forall r : AlertRow,
      In r (football_alerts db) -> ~ In r alerts ->
      rowOf (id r) (football_alerts (fst run)) = Some r).
Proof.
  intros Hdb Hkey Hnd alerts run.
  destruct (verifyGoalOutcomes_counts env now db Hdb Hkey) as (Hs & Hc & Hu).
  split; [exact Hs|]. split; [exact Hc|]. split; [exact Hu|]. split.
  - intros k alert Hk.
    pose proof (verifyGoalOutcomes_row env now db k alert Hdb Hkey Hnd Hk) as Hrow.
    split.
    + intros message Hrej. unfold run. rewrite Hrow, Hrej. split; [reflexivity|].
      exact (proj1 (proj2 (unverifiedAlerts_In now _ alert (nth_error_In _ _ Hk)))).
    + intros fixture others Hres. unfold run. rewrite Hrow, Hres. reflexivity.
  - intros r Hin Hout.
    exact (verifyGoalOutcomes_outside env now db r Hdb Hkey Hnd Hin Hout).
Qed.

End OutcomeVerifier.

(** The sample run: the first request times out, the other two report
    2-0; the first alert stays unverified, the second (raised at 1-0) is
    followed by a goal, the third (raised at 2-0) is not. *)
Example pending_run :
  Verifier.verifyGoalOutcomes Sample.feed Sample.env (minutes 30)
    (Sample.db Sample.pending 70%js 15%js)
  = (Sample.db [Sample.alert 1 0 None; Sample.alert 2 1 (Some true);
                Sample.alert 3 2 (Some false)] 70%js 15%js,
     {| Verifier.checked := 3; Verifier.updated := 2;
        Verifier.success := true; Verifier.error := None |}).
Proof. vm_compute. reflexivity. Qed.

Lemma pending_ids_NoDup : NoDup (map id Sample.pending).
Proof.
  repeat constructor; simpl; intuition discriminate.
Qed.

Lemma verifyGoalOutcomes_strict_witness :
  option_map goal_happened
    (Verifier.rowOf 2
       (football_alerts
          (fst (Verifier.verifyGoalOutcomes Sample.feed Sample.env (minutes 30)
                  (Sample.db Sample.pending 70%js 15%js)))))
  = Some (Some true).
Proof.
  refine (proj2 (proj2 (proj2 (proj2 (proj2
            (verifyGoalOutcomes_strict Sample.feed Sample.env (minutes 30)
               (Sample.db Sample.pending 70%js 15%js) 1 (Sample.alert 2 1 None)
               (Sample.fixture 2 0) [] eq_refl eq_refl pending_ids_NoDup
               eq_refl eq_refl))))) _ _); reflexivity.
Defined.

Lemma verifyGoalOutcomes_isolation_witness :
  Verifier.rowOf 1
    (football_alerts
       (fst (Verifier.verifyGoalOutcomes Sample.feed Sample.env (minutes 30)
               (Sample.db Sample.pending 70%js 15%js))))
  = Some (Sample.alert 1 0 None) /\
  Verifier.rowOf 3
    (football_alerts
       (fst (Verifier.verifyGoalOutcomes Sample.feed Sample.env (minutes 30)
               (Sample.db Sample.pending 70%js 15%js))))
  = Some (Sample.alert 3 2 (Some false)).
Proof.
  pose proof (verifyGoalOutcomes_isolation Sample.feed Sample.env (minutes 30)
                (Sample.db Sample.pending 70%js 15%js)
                eq_refl eq_refl pending_ids_NoDup) as H.
  destruct H as (_ & _ & _ & H & _). split.
  - exact (proj1 (proj1 (H 0%nat (Sample.alert 1 0 None) eq_refl)
                    "timeout of 10000ms exceeded" eq_refl)).
  - exact (proj2 (H 2%nat (Sample.alert 3 2 None) eq_refl)
                 (Sample.fixture 2 0) [] eq_refl).
Defined.

(* ================================================================= *)
(** ** AlertPolicy *)

Section AlertPolicy.

Import Policy.

(** A figure that reaches a threshold reaches every lower one. *)
Lemma geb_heldOrRaised (x before after : number) :
  heldOrRaised before after -> (x >=? after)%js = true -> (x >=? before)%js = true.
Proof.
  unfold heldOrRaised, geb, leb. intros [->|H] G.
  - exact G.
  - exact (SFleb_trans _ _ _ H G).
Qed.

(** C7. With the metrics fixed, raising any of the three thresholds can
    only withdraw an alert: an alert under the raised thresholds is an
    alert under the lower ones, and no alert under the lower ones stays no
    alert under the raised ones. *)
Theorem alertCriteria_monotone (m : Metrics) (t t' : Thresholds) :
  raised t t' ->
  (alertCriteria m t' = true -> alertCriteria m t = true) /\
  (alertCriteria m t = false -> alertCriteria m t' = false).
Proof.
  intros (Ht & Hd & He).
  assert (Hup : alertCriteria m t' = true -> alertCriteria m t = true).
  { unfold alertCriteria. intros H.
    apply orb_true_iff in H. destruct H as [H|H].
    - apply orb_true_iff in H. destruct H as [H|H].
      + rewrite (geb_heldOrRaised _ _ _ Ht H). reflexivity.
      + apply andb_true_iff in H. destruct H as [H1 H2].
        rewrite (geb_heldOrRaised _ _ _ Hd H1), H2.
        apply orb_true_iff. left. apply orb_true_r.
    - rewrite (geb_heldOrRaised _ _ _ He H). apply orb_true_r. }
  split; [exact Hup|].
  intros Hno. destruct (alertCriteria m t') eqn:E; [|reflexivity].
  rewrite (Hup eq_refl) in Hno. discriminate Hno.
Qed.

Lemma alertCriteria_monotone_witness :
  alertCriteria Sample.metrics (Sample.policyThresholds 70%js) = true.
Proof.
  refine (proj1 (alertCriteria_monotone Sample.metrics
                   (Sample.policyThresholds 70%js) (Sample.policyThresholds 80%js)
                   _) _).
  - split; [right; vm_compute; reflexivity|].
    split; left; reflexivity.
  - vm_compute. reflexivity.
Defined.

End AlertPolicy.

(* ================================================================= *)
(** ** More on binary64 arithmetic: addition commutes, the distance is
       symmetric *)

Section NumberSymmetry.

Lemma add_comm (x y : number) : (x + y)%js = (y + x)%js.
Proof.
  unfold add, SFadd.
  destruct x as [[]|[]| |sx mx ex], y as [[]|[]| |sy my ey]; try reflexivity.
  rewrite (Z.min_comm ey ex), Z.add_comm. reflexivity.
Qed.

Lemma abs_binary_round_aux (s s' : bool) (m e : Z) (l : location) :
  SFabs (binary_round_aux prec emax s m e l)
  = SFabs (binary_round_aux prec emax s' m e l).
Proof.
  unfold binary_round_aux.
  destruct (shr_fexp prec emax m e l) as [mrs' e'].
  destruct (shr_fexp prec emax
              (round_nearest_even (shr_m mrs') (loc_of_shr_record mrs')) e' loc_Exact)
    as [mrs'' e''].
  destruct (shr_m mrs'') as [|p|p]; try reflexivity.
  destruct (e'' <=? emax - prec); reflexivity.
Qed.

Lemma abs_binary_normalize_opp (m e : Z) :
  SFabs (binary_normalize prec emax m e false)
  = SFabs (binary_normalize prec emax (- m) e false).
Proof.
  destruct m as [|p|p]; simpl; try reflexivity;
    unfold binary_round;
    destruct (shl_align p e (fexp prec emax (Z.pos (digits2_pos p) + e))) as [mz ez];
    apply abs_binary_round_aux.
Qed.

Lemma abs_sub_comm (x y : number) : Math_abs (x - y)%js = Math_abs (y - x)%js.
Proof.
  unfold Math_abs, sub, SFsub.
  destruct x as [[]|[]| |sx mx ex], y as [[]|[]| |sy my ey]; try reflexivity.
  rewrite (Z.min_comm ey ex).
  rewrite abs_binary_normalize_opp. f_equal. f_equal. lia.
Qed.

(** An absolute value is not below zero. *)
Lemma abs_not_negative (x : number) : (Math_abs x <? 0)%js = false.
Proof.
  destruct x as [[]|[]| |[] m e]; reflexivity.
Qed.

End NumberSymmetry.

(* ================================================================= *)
(** ** More on PressureScorer *)

Section PressureScorerMore.

Import Pressure.

(** X1. Exchanging the first two entries of the snapshot exchanges
    [pressHome] and [pressAway] and leaves [pressTotal] and [pressDiff] as
    they are, whatever entries follow them: only the first two count, and
    the order of the two matters to nothing but the labels.  [pressDiff] is
    never below zero. *)
Theorem calculatePressure_symmetric
    (homeStats awayStats : option Team) (rest rest' : list (option Team)) :
  let r := calculatePressure (homeStats :: awayStats :: rest) in
  let r' := calculatePressure (awayStats :: homeStats :: rest') in
  pressHome r' = pressAway r /\
  pressAway r' = pressHome r /\
  pressTotal r' = pressTotal r /\
  pressDiff r' = pressDiff r /\
  (pressDiff r <? 0)%js = false.
Proof.
  destruct homeStats as [h|], awayStats as [a|]; cbv zeta;
    try (repeat split; reflexivity).
  unfold calculatePressure, calculatePressure_body.
  cbn [List.length Nat.ltb Nat.leb nth getStatValue bind try_catch
       pressHome pressAway pressTotal pressDiff].
  repeat split.
  - apply add_comm.
  - apply abs_sub_comm.
  - apply abs_not_negative.
Qed.

(** X2. The call succeeds exactly when the snapshot starts with two team
    objects; every other call returns the failure object, all metrics zero,
    with a message. *)
Theorem calculatePressure_success_iff (stats : list (option Team)) :
  (success (calculatePressure stats) = true <->
   exists (homeStats awayStats : Team) (rest : list (option Team)),
     stats = Some homeStats :: Some awayStats :: rest) /\
  (success (calculatePressure stats) = true -> error (calculatePressure stats) = None) /\
  (success (calculatePressure stats) = false ->
   exists message : string,
     message <> ""%string /\ calculatePressure stats = failure message).
Proof.
  destruct stats as [|[h|] [|[a|] rest]].
  all: split; [split; [intros H | intros (h' & a' & rest' & E)] | split; intros H].
  all: try discriminate.
  all: try reflexivity.
  all: try (eexists; split; [|reflexivity]; discriminate).
  exists h, a, rest. reflexivity.
Qed.

Lemma scanStatistics_lacks (items : list StatItem) (key : string) :
  Forall (fun item => type_is item key = false) items ->
  scanStatistics items key = 0%js.
Proof.
  induction 1 as [|item items Hitem _ IH]; simpl.
  - reflexivity.
  - rewrite Hitem. exact IH.
Qed.

(** X3. A statistic that a team does not list counts as 0: for two team
    objects that list none of the three statistics the call succeeds with
    every metric zero. *)
Theorem calculatePressure_missing_statistics (homeStats awayStats : Team) :
  (forall key : string, In key View.keys ->
     View.lacks homeStats key /\ View.lacks awayStats key) ->
  calculatePressure [Some homeStats; Some awayStats] =
    {| pressHome := 0%js; pressAway := 0%js; pressTotal := 0%js; pressDiff := 0%js;
       attacksHome := 0%js; attacksAway := 0%js;
       shotsHome := 0%js; shotsAway := 0%js;
       cornersHome := 0%js; cornersAway := 0%js;
       success := true; error := None |}.
Proof.
  intros H.
  destruct (H "Total attacks") as [Ha1 Ha2]; [simpl; auto|].
  destruct (H "Shots on Goal") as [Hs1 Hs2]; [simpl; auto|].
  destruct (H "Corner Kicks") as [Hc1 Hc2]; [simpl; auto 6|].
  unfold calculatePressure, calculatePressure_body.
  cbn [List.length Nat.ltb Nat.leb nth getStatValue bind try_catch].
  rewrite (scanStatistics_lacks _ _ Ha1), (scanStatistics_lacks _ _ Ha2),
          (scanStatistics_lacks _ _ Hs1), (scanStatistics_lacks _ _ Hs2),
          (scanStatistics_lacks _ _ Hc1), (scanStatistics_lacks _ _ Hc2).
  vm_compute. reflexivity.
Qed.

Lemma calculatePressure_missing_statistics_witness :
  success (calculatePressure [Sample2.silentTeam; Sample2.silentTeam]) = true.
Proof.
  unfold Sample2.silentTeam.
  rewrite calculatePressure_missing_statistics; [reflexivity|].
  intros key _. split; constructor.
Defined.

Lemma lower_ascii_idempotent (c : ascii) :
  lower_ascii (lower_ascii c) = lower_ascii c.
Proof.
  destruct c as [[] [] [] [] [] [] [] []]; reflexivity.
Qed.

Lemma toLowerCase_idempotent (s : string) :
  toLowerCase (toLowerCase s) = toLowerCase s.
Proof.
  induction s as [|c s IH]; simpl.
  - reflexivity.
  - rewrite lower_ascii_idempotent, IH. reflexivity.
Qed.

(** X4. Statistics are found whatever the case of their names: putting the
    types of the entries, or the name asked for, in lower case changes no
    count. *)
Theorem scanStatistics_case_insensitive (items : list StatItem) (key : string) :
  scanStatistics (map View.lowerType items) key = scanStatistics items key /\
  scanStatistics items (toLowerCase key) = scanStatistics items key.
Proof.
  split.
  - induction items as [|item items IH]; simpl.
    + reflexivity.
    + assert (E : type_is (View.lowerType item) key = type_is item key).
      { unfold type_is, View.lowerType. cbn [type].
        destruct (type item) as [t|]; simpl; [|reflexivity].
        rewrite toLowerCase_idempotent. reflexivity. }
      rewrite E, IH. reflexivity.
  - induction items as [|item items IH]; simpl.
    + reflexivity.
    + assert (E : type_is item (toLowerCase key) = type_is item key).
      { unfold type_is. destruct (type item) as [t|]; [|reflexivity].
        rewrite toLowerCase_idempotent. reflexivity. }
      rewrite E, IH. reflexivity.
Qed.

End PressureScorerMore.

(* ================================================================= *)
(** ** More on OutcomeVerifier *)

Section OutcomeVerifierMore.

Import Verifier.

Variable axios_get : nat -> Z -> Reply.

(** *** What a run leaves alone *)

Lemma withoutOutcome_setGoalHappened (goalHappened : bool) (r : AlertRow) :
  View.withoutOutcome (setGoalHappened goalHappened r) = View.withoutOutcome r.
Proof. reflexivity. Qed.

Lemma updateQuery_shape (goalHappened : bool) (alertId : Z) (rows : list AlertRow) :
  map View.withoutOutcome (updateQuery goalHappened alertId rows)
  = map View.withoutOutcome rows.
Proof.
  unfold updateQuery. rewrite map_map. apply map_ext.
  intros r. destruct (Store.id r =? alertId); reflexivity.
Qed.

Lemma forEachAlert_shape (alerts : list AlertRow) (k : nat)
      (rows : list AlertRow) (n : Z) :
  map View.withoutOutcome (fst (forEachAlert axios_get alerts k rows n))
  = map View.withoutOutcome rows.
Proof.
  revert k rows n. induction alerts as [|a alerts IH]; intros k rows n; simpl.
  - reflexivity.
  - destruct (axios_get k (fixture_id a)) as [msg|[[|f fs]|]];
      rewrite IH; try reflexivity.
    apply updateQuery_shape.
Qed.

Lemma ids_of_shape (rows rows' : list AlertRow) :
  map View.withoutOutcome rows' = map View.withoutOutcome rows ->
  map Store.id rows' = map Store.id rows.
Proof.
  intros H.
  assert (E : forall l, map Store.id l = map Store.id (map View.withoutOutcome l))
    by (intros l; rewrite map_map; reflexivity).
  rewrite (E rows'), (E rows), H. reflexivity.
Qed.

Lemma verifyGoalOutcomes_shape (env : Env) (now : Z) (db : Db) :
  map View.withoutOutcome (football_alerts (fst (verifyGoalOutcomes axios_get env now db)))
  = map View.withoutOutcome (football_alerts db) /\
  football_thresholds (fst (verifyGoalOutcomes axios_get env now db))
  = football_thresholds db.
Proof.
  unfold verifyGoalOutcomes.
  destruct (negb (configured (DATABASE_URL env))
            || negb (configured (API_FOOTBALL_KEY env))).
  - split; reflexivity.
  - pose proof (forEachAlert_shape (unverifiedAlerts now (football_alerts db)) 0
                  (football_alerts db) 0) as H.
    destruct (forEachAlert axios_get (unverifiedAlerts now (football_alerts db)) 0
                (football_alerts db) 0) as [rows n].
    split; [exact H | reflexivity].
Qed.

Lemma verifyGoalOutcomes_distinct (env : Env) (now : Z) (db : Db) :
  Invariant.distinctIds db ->
  Invariant.distinctIds (fst (verifyGoalOutcomes axios_get env now db)).
Proof.
  unfold Invariant.distinctIds. intros H.
  rewrite (ids_of_shape _ _ (proj1 (verifyGoalOutcomes_shape env now db))).
  exact H.
Qed.

(** X5. A run, configured or not and whatever the feed replies, changes
    nothing but outcomes: the rows of the ledger are the same rows in the
    same order once their [goal_happened] is set aside, the thresholds are
    untouched, and distinct ids stay distinct. *)
Theorem verifyGoalOutcomes_only_outcomes (env : Env) (now : Z) (db : Db) :
  let after := fst (verifyGoalOutcomes axios_get env now db) in
  map View.withoutOutcome (football_alerts after)
  = map View.withoutOutcome (football_alerts db) /\
  List.length (football_alerts after) = List.length (football_alerts db) /\
  football_thresholds after = football_thresholds db /\
  (Invariant.distinctIds db -> Invariant.distinctIds after).
Proof.
  intros after.
  destruct (verifyGoalOutcomes_shape env now db) as [Hs Ht].
  split; [exact Hs|]. split; [|split; [exact Ht|]].
  - rewrite <- (length_map View.withoutOutcome (football_alerts after)).
    rewrite <- (length_map View.withoutOutcome (football_alerts db)).
    unfold after. rewrite Hs. reflexivity.
  - apply verifyGoalOutcomes_distinct.
Qed.

Lemma verifyGoalOutcomes_unconfigured (env : Env) (now : Z) (db : Db) :
  configured (DATABASE_URL env) && configured (API_FOOTBALL_KEY env) = false ->
  verifyGoalOutcomes axios_get env now db
  = (db, {| checked := 0; updated := 0; success := false;
            error := Some "Missing DATABASE_URL or API_FOOTBALL_KEY" |}).
Proof.
  intros H. unfold verifyGoalOutcomes.
  destruct (configured (DATABASE_URL env)), (configured (API_FOOTBALL_KEY env));
    try discriminate; reflexivity.
Qed.

(** X6. An outcome, once recorded, is final, and an alert younger than ten
    minutes is not looked at: a row that is verified already, or was
    created less than ten minutes before the run, is after the run the row
    it was. *)
Theorem verifyGoalOutcomes_final (env : Env) (now : Z) (db : Db) (r : AlertRow) :
  Invariant.distinctIds db ->
  In r (football_alerts db) ->
  Store.goal_happened r <> None \/ Store.created_at r >= now - minutes 10 ->
  rowOf (Store.id r) (football_alerts (fst (verifyGoalOutcomes axios_get env now db)))
  = Some r.
Proof.
  intros Hnd Hin Hr.
  destruct (configured (DATABASE_URL env) && configured (API_FOOTBALL_KEY env)) eqn:C.
  - apply andb_prop in C. destruct C as [Hdb Hkey].
    apply verifyGoalOutcomes_outside; auto.
    intros Hbatch.
    destruct (unverifiedAlerts_In now _ r Hbatch) as (_ & Hnull & Hold).
    destruct Hr as [Hr|Hr]; [exact (Hr Hnull) | lia].
  - rewrite (verifyGoalOutcomes_unconfigured env now db C). cbn [fst].
    exact (rowOf_In (Store.id r) _ r Hnd Hin eq_refl).
Qed.

(** *** The batch *)

Lemma insertByCreatedAt_sorted (r : AlertRow) (sorted : list AlertRow) :
  Invariant.oldestFirst sorted ->
  Invariant.oldestFirst (insertByCreatedAt r sorted).
Proof.
  unfold Invariant.oldestFirst.
  induction 1 as [|x rest Hrest IH Hx]; simpl.
  - repeat constructor.
  - destruct (Z.leb_spec (Store.created_at r) (Store.created_at x)) as [L|L].
    + constructor; [constructor; assumption|].
      constructor; [exact L|].
      eapply Forall_impl; [|exact Hx]. simpl. intros b Hb. lia.
    + constructor; [exact IH|].
      apply (Permutation_Forall (Permutation_sym (insertByCreatedAt_perm r rest))).
      constructor; [lia | exact Hx].
Qed.

Lemma orderByCreatedAt_sorted (rows : list AlertRow) :
  Invariant.oldestFirst (orderByCreatedAt rows).
Proof.
  induction rows as [|r rows IH]; simpl.
  - constructor.
  - apply insertByCreatedAt_sorted, IH.
Qed.

Lemma oldestFirst_firstn (n : nat) (rows : list AlertRow) :
  Invariant.oldestFirst rows ->
  Invariant.oldestFirst (firstn n rows) /\
  forall a b : AlertRow,
    In a (firstn n rows) -> In b (skipn n rows) ->
    Store.created_at a <= Store.created_at b.
Proof.
  unfold Invariant.oldestFirst. revert rows.
  induction n as [|n IH]; intros rows H.
  - simpl. split; [constructor | intros a b []].
  - destruct rows as [|x rows]; simpl.
    + split; [constructor | intros a b []].
    + inversion H as [|? ? Hrest Hx]; subst.
      destruct (IH rows Hrest) as [IH1 IH2]. split.
      * constructor; [exact IH1|].
        rewrite Forall_forall in *. intros b Hb. apply Hx.
        rewrite <- (firstn_skipn n rows). apply in_or_app. left. exact Hb.
      * intros a b [->|Ha] Hb.
        -- rewrite Forall_forall in Hx. apply Hx.
           rewrite <- (firstn_skipn n rows). apply in_or_app. right. exact Hb.
        -- exact (IH2 a b Ha Hb).
Qed.

(** X7. The batch of a run is the oldest waiting alerts, at most 50 of them:
    it has [min 50 n] alerts when [n] unverified alerts are older than ten
    minutes, it is in the order of their creation, and no waiting alert left
    out of it is older than an alert in it. *)
Theorem unverifiedAlerts_oldest (now : Z) (rows : list AlertRow) :
  let batch := unverifiedAlerts now rows in
  List.length batch = Nat.min 50 (List.length (Invariant.eligible now rows)) /\
  Invariant.oldestFirst batch /\
  (forall a r : AlertRow,
      In a batch -> In r (Invariant.eligible now rows) -> ~ In r batch ->
      Store.created_at a <= Store.created_at r).
Proof.
  intros batch. unfold batch, unverifiedAlerts.
  fold (Invariant.eligible now rows).
  pose proof (orderByCreatedAt_perm (Invariant.eligible now rows)) as P.
  pose proof (orderByCreatedAt_sorted (Invariant.eligible now rows)) as S.
  destruct (oldestFirst_firstn 50 _ S) as [S1 S2].
  split; [|split].
  - rewrite length_firstn, (Permutation_length P). reflexivity.
  - exact S1.
  - intros a r Ha Hr Hout. apply (S2 a r Ha).
    apply (Permutation_in _ (Permutation_sym P)) in Hr.
    rewrite <- (firstn_skipn 50 (orderByCreatedAt (Invariant.eligible now rows))) in Hr.
    apply in_app_or in Hr. destruct Hr as [Hr|Hr]; [contradiction | exact Hr].
Qed.

Lemma countFixtures_bounds (alerts : list AlertRow) (k : nat) :
  0 <= countFixtures axios_get alerts k <= Z.of_nat (List.length alerts).
Proof.
  revert k. induction alerts as [|a alerts IH]; intros k.
  - simpl. lia.
  - cbn [countFixtures List.length]. specialize (IH (S k)).
    destruct (hasFixture (axios_get k (fixture_id a))); lia.
Qed.

(** X8. A run never checks more than 50 alerts and never updates more than
    it checks; the alert of the batch whose request comes back without a
    fixture (the response absent or empty) keeps its row, unverified. *)
Theorem verifyGoalOutcomes_bounds (env : Env) (now : Z) (db : Db) :
  Invariant.distinctIds db ->
  let run := verifyGoalOutcomes axios_get env now db in
  0 <= updated (snd run) <= checked (snd run) /\
  checked (snd run) <= 50 /\
  (success (snd run) = true ->
   forall (k : nat) (alert : AlertRow),
     nth_error (unverifiedAlerts now (football_alerts db)) k = Some alert ->
     hasFixture (axios_get k (fixture_id alert)) = false ->
     rowOf (Store.id alert) (football_alerts (fst run)) = Some alert /\
     Store.goal_happened alert = None).
Proof.
  intros Hnd run.
  destruct (configured (DATABASE_URL env) && configured (API_FOOTBALL_KEY env)) eqn:C.
  - apply andb_prop in C. destruct C as [Hdb Hkey].
    destruct (verifyGoalOutcomes_counts axios_get env now db Hdb Hkey)
      as (_ & Hc & Hu).
    fold run in Hc, Hu. rewrite Hc, Hu.
    pose proof (countFixtures_bounds (unverifiedAlerts now (football_alerts db)) 0).
    pose proof (unverifiedAlerts_at_most_50 now (football_alerts db)).
    split; [lia|]. split; [lia|].
    intros _ k alert Hk Hno. unfold run.
    rewrite (verifyGoalOutcomes_row axios_get env now db k alert Hdb Hkey Hnd Hk).
    split.
    + destruct (axios_get k (fixture_id alert)) as [msg|[[|f fs]|]];
        try reflexivity. discriminate Hno.
    + exact (proj1 (proj2 (unverifiedAlerts_In now _ alert (nth_error_In _ _ Hk)))).
  - unfold run. rewrite (verifyGoalOutcomes_unconfigured env now db C).
    cbn [snd updated checked success].
    split; [lia|]. split; [lia|]. discriminate.
Qed.

(** X9. An alert is resolved once: the alert a run has resolved is in the
    batch of no later run. *)
Theorem verifyGoalOutcomes_once
    (env : Env) (now now' : Z) (db : Db) (k : nat) (alert : AlertRow) :
  configured (DATABASE_URL env) = true ->
  configured (API_FOOTBALL_KEY env) = true ->
  Invariant.distinctIds db ->
  nth_error (unverifiedAlerts now (football_alerts db)) k = Some alert ->
  hasFixture (axios_get k (fixture_id alert)) = true ->
  ~ In (Store.id alert)
       (map Store.id
          (unverifiedAlerts now'
             (football_alerts (fst (verifyGoalOutcomes axios_get env now db))))).
Proof.
  intros Hdb Hkey Hnd Hk Hfix Hin.
  apply in_map_iff in Hin. destruct Hin as (a' & Hid & Hbatch).
  destruct (unverifiedAlerts_In now' _ a' Hbatch) as (Hin' & Hnull & _).
  pose proof (verifyGoalOutcomes_row axios_get env now db k alert Hdb Hkey Hnd Hk) as Hrow.
  pose proof (rowOf_In (Store.id alert) _ a'
                (verifyGoalOutcomes_distinct env now db Hnd) Hin' Hid) as Hrow'.
  rewrite Hrow in Hrow'.
  destruct (axios_get k (fixture_id alert)) as [msg|[[|f fs]|]];
    try discriminate Hfix.
  simpl in Hrow'. inversion Hrow' as [E]. rewrite <- E in Hnull.
  discriminate Hnull.
Qed.

End OutcomeVerifierMore.

Lemma verifyGoalOutcomes_final_witness :
  Verifier.rowOf 2
    (football_alerts
       (fst (Verifier.verifyGoalOutcomes Sample.feed Sample.env (minutes 5)
               (Sample.db Sample.pending 70%js 15%js))))
  = Some (Sample.alert 2 1 None).
Proof.
  refine (verifyGoalOutcomes_final Sample.feed Sample.env (minutes 5)
            (Sample.db Sample.pending 70%js 15%js) (Sample.alert 2 1 None) _ _ _).
  - unfold Invariant.distinctIds. repeat constructor; simpl; intuition discriminate.
  - simpl. auto.
  - right. vm_compute. discriminate.
Defined.

Lemma verifyGoalOutcomes_bounds_witness :
  Verifier.checked
    (snd (Verifier.verifyGoalOutcomes Sample.feed Sample.env (minutes 30)
            (Sample.db Sample.pending 70%js 15%js))) <= 50.
Proof.
  refine (proj1 (proj2 (verifyGoalOutcomes_bounds Sample.feed Sample.env (minutes 30)
                          (Sample.db Sample.pending 70%js 15%js) _))).
  unfold Invariant.distinctIds. repeat constructor; simpl; intuition discriminate.
Defined.

Lemma verifyGoalOutcomes_once_witness :
  ~ In 2
      (map Store.id
         (Verifier.unverifiedAlerts (minutes 60)
            (football_alerts
               (fst (Verifier.verifyGoalOutcomes Sample.feed Sample.env (minutes 30)
                       (Sample.db Sample.pending 70%js 15%js)))))).
Proof.
  refine (verifyGoalOutcomes_once Sample.feed Sample.env (minutes 30) (minutes 60)
            (Sample.db Sample.pending 70%js 15%js) 1 (Sample.alert 2 1 None)
            eq_refl eq_refl _ eq_refl eq_refl).
  unfold Invariant.distinctIds. repeat constructor; simpl; intuition discriminate.
Defined.

(* ================================================================= *)
(** ** More on ThresholdAdjuster, with the reader and the recorder *)

Section ThresholdAdjusterMore.

Import Adjuster.

Lemma performDailyAnalysis_unconfigured (env : Env) (now : Z) (db : Db) :
  configured (DATABASE_URL env) = false ->
  performDailyAnalysis env now db = (db, failure "DATABASE_URL not configured").
Proof.
  intros H. unfold performDailyAnalysis. rewrite H. reflexivity.
Qed.

Lemma performDailyAnalysis_no_row (env : Env) (now : Z) (db : Db) :
  configured (DATABASE_URL env) = true ->
  football_thresholds db = None ->
  performDailyAnalysis env now db
  = (db, failure "Cannot read properties of undefined (reading 'threshold_total')").
Proof.
  intros H R. unfold performDailyAnalysis, performDailyAnalysis_body.
  rewrite H, R. reflexivity.
Qed.


Lemma length_nodup_le (l : list Z) :
  (List.length (nodup Z.eq_dec l) <= List.length l)%nat.
Proof.
  induction l as [|x l IH]; simpl.
  - lia.
  - destruct (in_dec Z.eq_dec x l); simpl; lia.
Qed.

Lemma nodup_nonempty (l : list Z) :
  l <> [] -> nodup Z.eq_dec l <> [].
Proof.
  intros H E. destruct l as [|x l]; [contradiction|].
  assert (Hin : In x (nodup Z.eq_dec (x :: l))) by (apply nodup_In; left; reflexivity).
  rewrite E in Hin. contradiction.
Qed.

Lemma statsQuery_counts (now : Z) (rows : list AlertRow) :
  let stats := statsQuery now rows in
  0 <= goals_confirmed stats <= total_alerts stats /\
  0 <= unique_matches stats <= total_alerts stats /\
  (0 < total_alerts stats -> 0 < unique_matches stats).
Proof.
  unfold statsQuery. cbn [goals_confirmed total_alerts unique_matches].
  pose proof (filter_length_le (fun r => is_true (Store.goal_happened r))
                (resolvedLastDay now rows)) as H1.
  pose proof (length_nodup_le (map Store.fixture_id (resolvedLastDay now rows))) as H2.
  rewrite length_map in H2.
  split; [lia|]. split; [lia|].
  intros Hpos.
  destruct (resolvedLastDay now rows) as [|r l] eqn:E; [simpl in Hpos; lia|].
  assert (Hne : nodup Z.eq_dec (map Store.fixture_id (r :: l)) <> [])
    by (apply nodup_nonempty; discriminate).
  destruct (nodup Z.eq_dec (map Store.fixture_id (r :: l))); [contradiction|].
  simpl. lia.
Qed.

(** X11. The counts a run reports are consistent: the goals confirmed and
    the matches monitored are between 0 and the alerts sent, and there is a
    match as soon as there is an alert. *)
Theorem performDailyAnalysis_counts (env : Env) (now : Z) (db : Db) :
  let r := snd (performDailyAnalysis env now db) in
  0 <= goalsConfirmed r <= alertsSent r /\
  0 <= matchesMonitored r <= alertsSent r /\
  (0 < alertsSent r -> 0 < matchesMonitored r).
Proof.
  cbv zeta.
  destruct (configured (DATABASE_URL env)) eqn:C.
  - destruct (football_thresholds db) as [row|] eqn:R.
    + rewrite (performDailyAnalysis_success env now db row C R). cbv zeta.
      cbn [snd goalsConfirmed alertsSent matchesMonitored].
      apply statsQuery_counts.
    + rewrite (performDailyAnalysis_no_row env now db C R). simpl. lia.
  - rewrite (performDailyAnalysis_unconfigured env now db C). simpl. lia.
Qed.

Lemma resolvedLastDay_none (now : Z) (rows : list AlertRow) :
  (forall r, In r rows ->
     Store.goal_happened r = None \/ Store.created_at r <= now - hours 24) ->
  resolvedLastDay now rows = [].
Proof.
  unfold resolvedLastDay.
  induction rows as [|x rows IH]; intros H; cbn [filter].
  - reflexivity.
  - rewrite IH by (intros r Hr; apply H; right; exact Hr).
    assert (F : (Store.created_at x >? now - hours 24)
                && negb (is_null (Store.goal_happened x)) = false).
    { destruct (H x (or_introl eq_refl)) as [E|E].
      - rewrite E. apply andb_false_r.
      - apply andb_false_intro1. rewrite Z.gtb_ltb. apply Z.ltb_ge. exact E. }
    rewrite F. reflexivity.
Qed.

(** X12. Alerts without an outcome and alerts older than 24 hours do not
    count: when the ledger holds no other alert the run reports no alert,
    accuracy 0, and writes nothing. *)
Theorem performDailyAnalysis_nothing_resolved (env : Env) (now : Z) (db : Db) :
  (forall r, In r (football_alerts db) ->
     Store.goal_happened r = None \/ Store.created_at r <= now - hours 24) ->
  let run := performDailyAnalysis env now db in
  fst run = db /\ alertsSent (snd run) = 0 /\ accuracy (snd run) = 0%js.
Proof.
  intros H run. unfold run.
  destruct (configured (DATABASE_URL env)) eqn:C.
  - destruct (football_thresholds db) as [row|] eqn:R.
    + rewrite (performDailyAnalysis_success env now db row C R). cbv zeta.
      unfold statsQuery. rewrite (resolvedLastDay_none now _ H).
      cbn [filter map nodup List.length Z.of_nat total_alerts goals_confirmed].
      repeat split.
    + rewrite (performDailyAnalysis_no_row env now db C R). repeat split.
  - rewrite (performDailyAnalysis_unconfigured env now db C). repeat split.
Qed.

Lemma performDailyAnalysis_nothing_resolved_witness :
  fst (performDailyAnalysis Sample.env (hours 1) (Sample.db Sample.pending 70%js 15%js))
  = Sample.db Sample.pending 70%js 15%js.
Proof.
  refine (proj1 (performDailyAnalysis_nothing_resolved Sample.env (hours 1)
                   (Sample.db Sample.pending 70%js 15%js) _)).
  intros r Hr. left. simpl in Hr.
  destruct Hr as [<-|[<-|[<-|[]]]]; reflexivity.
Defined.

(** X13. The two tools that read the thresholds agree in every state of the
    database: what [getCurrentThresholds] returns is what
    [performDailyAnalysis] reports as current thresholds, the stored row
    when they find it and the defaults 70, 15 and 3 when they do not. *)
Theorem readers_agree (env : Env) (clock now : Z) (db : Db) :
  Reader.thresholdsOf (Reader.getCurrentThresholds env clock db)
  = currentThresholds (snd (performDailyAnalysis env now db)) /\
  (football_thresholds db = None \/ configured (DATABASE_URL env) = false ->
   Reader.thresholdsOf (Reader.getCurrentThresholds env clock db) = defaults).
Proof.
  unfold Reader.getCurrentThresholds.
  destruct (configured (DATABASE_URL env)) eqn:C; cbn [negb].
  - destruct (football_thresholds db) as [row|] eqn:R.
    + rewrite (performDailyAnalysis_success env now db row C R). cbv zeta.
      split; [reflexivity|]. intros [H|H]; discriminate.
    + rewrite (performDailyAnalysis_no_row env now db C R).
      split; [reflexivity|]. intros _. reflexivity.
  - rewrite (performDailyAnalysis_unconfigured env now db C).
    split; [reflexivity|]. intros _. reflexivity.
Qed.



End ThresholdAdjusterMore.

(* ================================================================= *)
(** ** The recorder, with the verifier and the analysis *)

Section AlertLedger.

Import Recorder.

Variable axios_get : nat -> Z -> Verifier.Reply.







Lemma resolvedLastDay_stored (now now' nextId : Z) (context : Context)
      (rows : list AlertRow) :
  Adjuster.resolvedLastDay now' (rows ++ [insertQuery nextId now context])%list
  = Adjuster.resolvedLastDay now' rows.
Proof.
  unfold Adjuster.resolvedLastDay. rewrite filter_app. cbn [filter].
  cbn [insertQuery Store.goal_happened is_null negb].
  rewrite andb_false_r. apply app_nil_r.
Qed.

(** X17. Storing an alert changes nothing in what the analysis finds: a run
    of the analysis after [storeAlert] returns the result, and leaves the
    thresholds, it would have without the new alert. *)
Theorem storeAlert_not_counted
    (env env' : Env) (now now' nextId : Z) (context : Context) (db : Db) :
  let db1 := fst (storeAlert env now nextId context db) in
  snd (Adjuster.performDailyAnalysis env' now' db1)
  = snd (Adjuster.performDailyAnalysis env' now' db) /\
  football_thresholds (fst (Adjuster.performDailyAnalysis env' now' db1))
  = football_thresholds (fst (Adjuster.performDailyAnalysis env' now' db)).
Proof.
  intros db1.
  assert (Ht : football_thresholds db1 = football_thresholds db).
  { unfold db1, storeAlert.
    destruct (negb (configured (DATABASE_URL env))); reflexivity. }
  assert (Hs : Adjuster.statsQuery now' (football_alerts db1)
               = Adjuster.statsQuery now' (football_alerts db)).
  { unfold db1, storeAlert.
    destruct (negb (configured (DATABASE_URL env))); cbn [fst football_alerts];
      [reflexivity|].
    unfold Adjuster.statsQuery. rewrite resolvedLastDay_stored. reflexivity. }
  destruct (configured (DATABASE_URL env')) eqn:C.
  - destruct (football_thresholds db) as [r|] eqn:R.
    + rewrite (performDailyAnalysis_success env' now' db r C R).
      rewrite (performDailyAnalysis_success env' now' db1 r C Ht).
      cbv zeta. rewrite Hs. cbn [fst snd].
      split; [reflexivity|].
      match goal with |- context [Adjuster.nonzero ?f] =>
        destruct (Adjuster.nonzero f) end; cbn [football_thresholds]; congruence.
    + rewrite (performDailyAnalysis_no_row env' now' db C R).
      rewrite (performDailyAnalysis_no_row env' now' db1 C Ht).
      split; [reflexivity | cbn [fst]; congruence].
  - rewrite !(performDailyAnalysis_unconfigured env' now' _ C).
    split; [reflexivity | cbn [fst]; exact Ht].
Qed.

End AlertLedger.



(* ================================================================= *)
(** ** The schema set-up *)

Section SchemaSetup.

Import Setup.

Lemma migrationUpdate_id (now : Z) (rows : list AlertRow) :
  migrationUpdate now rows = rows.
Proof.
  unfold migrationUpdate. rewrite <- (map_id rows) at 2.
  apply map_ext. intros r.
  destruct (Store.goal_happened r) as [b|] eqn:E; cbn [is_null andb].
  - reflexivity.
  - destruct (Store.created_at r <? now - minutes 10); [|reflexivity].
    destruct r as [i f m g o c]. cbn in E. subst o. reflexivity.
Qed.

(** X18. The migration marks no alert: its UPDATE changes no row, so the
    alerts of a table that lacked [goals_at_alert] come out with the
    outcome they had, the unverified ones still unverified, and with a
    baseline of 0 goals. *)
Theorem initDatabase_migration (now : Z) (rows : list LegacyAlertRow)
        (t : option (option ThresholdRow)) :
  football_alerts (initDatabase now {| alerts := Legacy rows; thresholds := t |})
  = map addColumn rows /\
  (forall r : LegacyAlertRow, In r rows ->
     exists r' : AlertRow,
       In r' (football_alerts
                (initDatabase now {| alerts := Legacy rows; thresholds := t |})) /\
       Store.id r' = id r /\
       Store.goal_happened r' = goal_happened r /\
       goals_at_alert r' = 0).
Proof.
  assert (E : football_alerts
                (initDatabase now {| alerts := Legacy rows; thresholds := t |})
              = map addColumn rows).
  { unfold initDatabase, alertsAfter. cbn [football_alerts alerts].
    apply migrationUpdate_id. }
  split; [exact E|].
  intros r Hr. exists (addColumn r). rewrite E.
  split; [apply in_map, Hr|]. repeat split.
Qed.



End SchemaSetup.

(* ================================================================= *)
(** ** The ranges of the thresholds, kept *)

Section ThresholdRanges.

Lemma within_not_nan (lo hi x : number) : within lo hi x -> isNaN x = false.
Proof.
  unfold within, leb. intros [H _].
  apply SFleb_compare in H.
  destruct H as [H|H]; exact (proj2 (SFcompare_not_nan _ _ _ H)).
Qed.

Lemma defaults_in_range (now : Z) : Invariant.rowInRange (Setup.defaultRow now).
Proof.
  unfold Invariant.rowInRange. repeat split; try reflexivity; simpl; lia.
Qed.

(** X20. The ranges [50, 120], [10, 30] and [2, 6] of the three thresholds
    are an invariant of the store: the set-up establishes it when it
    inserts the defaults (and keeps it when the row it finds is in range),
    and the analysis, the verification and the recording of an alert keep
    it, whatever the ledger, the feed and the configuration. *)
Theorem thresholdsInRange_kept :
  (forall (now : Z) (inst : Setup.Installation),
      (forall row, Setup.thresholds inst = Some (Some row) ->
         Invariant.rowInRange row) ->
      Invariant.thresholdsInRange (Setup.initDatabase now inst)) /\
  (forall (env : Env) (now : Z) (db : Db),
      Invariant.thresholdsInRange db ->
      Invariant.thresholdsInRange (fst (Adjuster.performDailyAnalysis env now db))) /\
  (forall (axios_get : nat -> Z -> Verifier.Reply) (env : Env) (now : Z) (db : Db),
      Invariant.thresholdsInRange db ->
      Invariant.thresholdsInRange
        (fst (Verifier.verifyGoalOutcomes axios_get env now db))) /\
  (forall (env : Env) (now nextId : Z) (context : Recorder.Context) (db : Db),
      Invariant.thresholdsInRange db ->
      Invariant.thresholdsInRange
        (fst (Recorder.storeAlert env now nextId context db))).
Proof.
  unfold Invariant.thresholdsInRange, Invariant.rowInRange.
  split; [|split; [|split]].
  - intros now inst H.
    unfold Setup.initDatabase, Setup.thresholdsAfter. cbn [football_thresholds].
    destruct (Setup.thresholds inst) as [[row|]|] eqn:E.
    + exists row. split; [reflexivity | exact (H row eq_refl)].
    + exists (Setup.defaultRow now). split; [reflexivity | apply (defaults_in_range now)].
    + exists (Setup.defaultRow now). split; [reflexivity | apply (defaults_in_range now)].
  - intros env now db (row & R & Bt & Bd & Be).
    destruct (configured (DATABASE_URL env)) eqn:C.
    + rewrite (performDailyAnalysis_success env now db row C R). cbv zeta.
      cbn [fst].
      match goal with |- context [Adjuster.nonzero ?f] =>
        destruct (Adjuster.nonzero f) end.
      * match goal with
        | |- context [Adjuster.adjustmentFactorFor ?a ?n] =>
            destruct (newThresholds_within (threshold_total row) (threshold_diff row)
                        (escanteios_10min row) a n
                        (within_not_nan _ _ _ Bt) (within_not_nan _ _ _ Bd))
              as (B1 & B2 & _ & B4)
        end.
        eexists. split; [reflexivity|].
        cbn [Adjuster.updateQuery threshold_total threshold_diff escanteios_10min].
        split; [exact B1|]. split; [exact B2|].
        rewrite (B4 Be). exact Be.
      * exists row. auto.
    + rewrite (performDailyAnalysis_unconfigured env now db C).
      exists row. auto.
  - intros axios_get env now db (row & R & B).
    exists row. split; [|exact B].
    rewrite (proj2 (verifyGoalOutcomes_shape axios_get env now db)). exact R.
  - intros env now nextId context db (row & R & B).
    exists row. split; [|exact B].
    unfold Recorder.storeAlert.
    destruct (negb (configured (DATABASE_URL env))); exact R.
Qed.

Lemma thresholdsInRange_kept_witness :
  Invariant.thresholdsInRange
    (fst (Adjuster.performDailyAnalysis Sample.env (hours 1)
            (Setup.initDatabase 0 {| Setup.alerts := Setup.Current (Sample.resolved 10 9);
                                     Setup.thresholds := None |}))).
Proof.
  apply (proj1 (proj2 thresholdsInRange_kept)).
  apply (proj1 thresholdsInRange_kept).
  intros row H. discriminate H.
Defined.

End ThresholdRanges.

(* ================================================================= *)
(** ** The fetch tools *)

Section FetchTools.

Import Feed.

(** X21. When [getFixtureStats] fails, its statistics are empty and
    [calculatePressure] on them fails with the error "Insufficient
    statistics data"; the scorer succeeds on the statistics of the tool
    only if the tool succeeded, on a reply of status 200 that starts with
    two team objects. *)
Theorem getFixtureStats_then_calculatePressure
    (env : Env) (reply : HttpReply (option Pressure.Team)) :
  let fetched := getFixtureStats env reply in
  (stats_success fetched = false ->
   stats fetched = [] /\ stats_error fetched <> None /\
   Pressure.calculatePressure (stats fetched)
   = Pressure.failure "Insufficient statistics data") /\
  (Pressure.success (Pressure.calculatePressure (stats fetched)) = true ->
   stats_success fetched = true /\
   configured (API_FOOTBALL_KEY env) = true /\
   exists homeStats awayStats rest,
     reply = Replied 200 (Some (Some homeStats :: Some awayStats :: rest))).
Proof.
  intros fetched. unfold fetched, getFixtureStats.
  destruct (configured (API_FOOTBALL_KEY env)); cbn [negb].
  - destruct reply as [message|status response].
    + cbn [stats stats_success stats_error]. split.
      * intros _. repeat split. discriminate.
      * intros H. discriminate H.
    + destruct (Z.eqb_spec status 200) as [->|Hs]; cbn [negb].
      * cbn [stats stats_success stats_error]. split; [discriminate|].
        intros H. split; [reflexivity|]. split; [reflexivity|].
        destruct response as [[|[h|] [|[a|] rest]]|]; try discriminate H.
        exists h, a, rest. reflexivity.
      * cbn [stats stats_success stats_error]. split.
        -- intros _. repeat split. discriminate.
        -- intros H. discriminate H.
  - cbn [stats stats_success stats_error]. split.
    + intros _. repeat split. discriminate.
    + intros H. discriminate H.
Qed.

Lemma getFixtureStats_then_calculatePressure_witness :
  Pressure.calculatePressure (stats (getFixtureStats Sample.env (Replied 204 None)))
  = Pressure.failure "Insufficient statistics data".
Proof.
  exact (proj2 (proj2 (proj1
           (getFixtureStats_then_calculatePressure Sample.env (Replied 204 None))
           eq_refl))).
Defined.

(** X22. [fetchLiveFixtures] reports a count that is the number of fixtures
    it returns, on every path; it succeeds only on a reply of status 200,
    and a failure carries no fixture and a message. *)
Theorem fetchLiveFixtures_count (env : Env) (reply : HttpReply Verifier.Fixture) :
  let fetched := fetchLiveFixtures env reply in
  count fetched = Z.of_nat (List.length (fixtures fetched)) /\
  (success fetched = true ->
   configured (API_FOOTBALL_KEY env) = true /\
   exists response, reply = Replied 200 response /\
     fixtures fetched = match response with Some l => l | None => [] end) /\
  (success fetched = false -> fixtures fetched = [] /\ error fetched <> None).
Proof.
  intros fetched. unfold fetched, fetchLiveFixtures.
  destruct (configured (API_FOOTBALL_KEY env)); cbn [negb].
  - destruct reply as [message|status response].
    + cbn. repeat split; try discriminate.
    + destruct (Z.eqb_spec status 200) as [->|Hs]; cbn [negb].
      * cbn [count fixtures success error].
        split; [reflexivity|]. split; [|discriminate].
        intros _. split; [reflexivity|]. exists response. split; reflexivity.
      * cbn. repeat split; try discriminate.
  - cbn. repeat split; try discriminate.
Qed.

End FetchTools.

(* ================================================================= *)
(** ** The midnight step *)

Section MidnightStep.

Import Workflow.

Lemma isMidnight_window (t : Z) :
  isMidnight t = true <-> 0 <= t mod 86400000 < 60000.
Proof.
  unfold isMidnight, getUTCHours, getUTCMinutes.
  rewrite andb_true_iff, !Z.eqb_eq.
  split; intros H; [destruct H as [H1 H2] | split]; Z.div_mod_to_equations; lia.
Qed.

(** X23. The analysis is asked for during the first minute of a UTC day and
    at no other time: [isMidnight] holds exactly when the time is less than
    60 seconds into the day.  On the schedule of one run per full minute, a
    step that reads the clock within the minute of its tick calls the agent
    on one tick in 1440, and then an error of the agent is an error of the
    step; on every other tick it returns without calling it. *)
Theorem checkMidnightAndRunAnalysis_window (clock k : Z) (agent : Completion string) :
  (isMidnight clock = true <-> 0 <= clock mod 86400000 < 60000) /\
  (tick k <= clock < tick (k + 1) ->
   (k mod 1440 <> 0 ->
    checkMidnightAndRunAnalysis clock agent
    = Normal {| step_isMidnight := false; analysisRun := false;
                analysisReport := None |}) /\
   (k mod 1440 = 0 ->
    checkMidnightAndRunAnalysis clock agent
    = match agent with
      | Normal text =>
          Normal {| step_isMidnight := true; analysisRun := true;
                    analysisReport := Some text |}
      | Throw message => Throw message
      end)).
Proof.
  split; [apply isMidnight_window|].
  intros Hk.
  assert (W : isMidnight clock = true <-> k mod 1440 = 0).
  { rewrite isMidnight_window. unfold tick in Hk.
    split; intros H; Z.div_mod_to_equations; lia. }
  unfold checkMidnightAndRunAnalysis. split.
  - intros H. destruct (isMidnight clock) eqn:E; [|reflexivity].
    exfalso. apply H, W. reflexivity.
  - intros H. rewrite (proj2 W H). cbn [negb]. destruct agent; reflexivity.
Qed.

Lemma checkMidnightAndRunAnalysis_window_witness :
  checkMidnightAndRunAnalysis (tick 1440 + 2500) (Throw "rate limit")
  = Throw "rate limit".
Proof.
  refine (proj2 (proj2 (checkMidnightAndRunAnalysis_window (tick 1440 + 2500) 1440
                          (Throw "rate limit")) _) eq_refl).
  vm_compute. split; [discriminate | reflexivity].
Defined.

End MidnightStep.

(* ================================================================= *)
(** ** The alert criteria on the metrics of a failed scoring *)

Section AlertPolicyMore.

Import Policy.

(** X24. Below the floors of the ranges nothing alerts: metrics with a
    total pressure under 50, fewer than 2 shots on goal and fewer than 2
    corners meet none of the criteria under any total threshold of at least
    50 and corner threshold of at least 2.  The zeroed metrics of a failed
    scoring are such metrics. *)
Theorem alertCriteria_quiet (m : Metrics) (t : Thresholds) :
  (press_total m <? 50)%js = true ->
  (shots_on_goal m <? 2)%js = true ->
  (corners m <? 2)%js = true ->
  (50 <=? threshold_total t)%js = true ->
  (2 <=? escanteios_10min t)%js = true ->
  alertCriteria m t = false.
Proof.
  unfold ltb, leb, alertCriteria, geb. intros Hp Hs Hc Ht He.
  assert (below : forall x floor bar : number,
             SFltb x floor = true -> SFleb floor bar = true -> SFleb bar x = false).
  { intros x floor bar Hx Hbar.
    destruct (SFleb bar x) eqn:E; [|reflexivity].
    pose proof (SFleb_not_gtb _ _ (SFleb_trans _ _ _ Hbar E)) as F.
    rewrite Hx in F. discriminate F. }
  rewrite (below _ _ _ Hp Ht), (below _ _ _ Hc He).
  rewrite (below _ _ _ Hs (SFleb_refl 2%js eq_refl)).
  rewrite andb_false_r. reflexivity.
Qed.

Lemma alertCriteria_quiet_witness :
  alertCriteria Sample2.zeroMetrics (Sample.policyThresholds 70%js) = false.
Proof.
  apply alertCriteria_quiet; reflexivity.
Defined.

End AlertPolicyMore.
